(** * The A/B-testing statistics engine: validation, sample size, two-proportion
      z-test and sequential monitoring.

    The development embeds the two statistics modules of the repository:
    [src/utils/abTestingUtils.ts] (module [AbTestingUtils] below) and the
    second copy kept in [src/unnamed/part_000] (module [Statistics], the
    name its callers import it under).

    Numbers.  A TypeScript [number] is an IEEE-754 double.  Two models of it
    are used.

    [num] is a real number, or one of the three special values [+Infinity],
    [-Infinity], [NaN], with the IEEE rules for the special values (division
    by zero, [0/0], comparisons with [NaN], ...) and exact arithmetic on the
    finite values.  Rounding and overflow are abstracted away, and there is a
    single zero, which stands for [+0]: every divisor of the embedded code
    that can vanish is a length, a square, a square root or a sum started at
    [0], none of which is ever [-0].  It carries the properties that rounding
    does not decide: which check fails, what is raised, how [NaN] and the
    infinities propagate, which fields a result has.

    [Binary64] evaluates [validateInputs] and [calculateSampleSize] on the
    primitive binary64 numbers of Rocq, operation by operation as the source
    writes them.  It carries what [calculateSampleSize] returns inside its
    bounds, which rounding does decide: for [mde < 2^-53] the sum [1 + mde]
    is [1], the divisor [(p2 - p1)^2] is [0] and the size is [+Infinity].

    The normal distribution.  [jstat.normal.cdf] and [jstat.normal.inv]
    belong to the external package [jstat]; they enter as the two real
    functions [Phi] and [PhiInv] of a section, lifted to [num].

    The callers.  The pages [src/ABTestingFramework.tsx] (module [Page]),
    [src/components/ABTestingFramework.tsx] (module [Component]) and
    [src/unnamed/part_001] (module [Part001]) are embedded as far as they
    compute: their shape checks over JavaScript values, their data
    generator with [Math.random] as an oracle, and their event handlers as
    functions from the state of a render to the state they set. *)

From Stdlib Require Import Floats.
From Stdlib Require Import Reals Lra Lia ZArith List String Bool Sorted.
From Stdlib Require Import Permutation.
Import ListNotations.

(** In [float_scope] a decimal literal stands for the nearest binary64
    number, as it does in JavaScript. *)
Set Warnings "-inexact-float".

Local Open Scope R_scope.

(** ** JavaScript numbers *)

Inductive num : Type :=
| Fin (x : R)
| PInf
| NInf
| NaN.

Declare Scope num_scope.
Delimit Scope num_scope with num.
Bind Scope num_scope with num.

Definition Rltb (x y : R) : bool := if Rlt_dec x y then true else false.
Definition Rleb (x y : R) : bool := if Rle_dec x y then true else false.
Definition Reqb (x y : R) : bool := if Req_dec_T x y then true else false.

Definition inf_of (positive : bool) : num := if positive then PInf else NInf.

Definition neg (a : num) : num :=
  match a with
  | Fin x => Fin (- x)
  | PInf => NInf
  | NInf => PInf
  | NaN => NaN
  end.

Definition add (a b : num) : num :=
  match a, b with
  | NaN, _ | _, NaN => NaN
  | Fin x, Fin y => Fin (x + y)
  | PInf, NInf | NInf, PInf => NaN
  | PInf, _ | _, PInf => PInf
  | NInf, _ | _, NInf => NInf
  end.

Definition sub (a b : num) : num := add a (neg b).

(** [±Infinity * x] for a finite [x]. *)
Definition inf_times (positive : bool) (x : R) : num :=
  if Reqb x 0 then NaN
  else if Rltb 0 x then inf_of positive else inf_of (negb positive).

Definition mul (a b : num) : num :=
  match a, b with
  | NaN, _ | _, NaN => NaN
  | Fin x, Fin y => Fin (x * y)
  | PInf, Fin y => inf_times true y
  | NInf, Fin y => inf_times false y
  | Fin x, PInf => inf_times true x
  | Fin x, NInf => inf_times false x
  | PInf, PInf | NInf, NInf => PInf
  | PInf, NInf | NInf, PInf => NInf
  end.

(** [±Infinity / y] for a finite [y]; the zero divisor is [+0]. *)
Definition inf_over (positive : bool) (y : R) : num :=
  if Rltb y 0 then inf_of (negb positive) else inf_of positive.

Definition div (a b : num) : num :=
  match a, b with
  | NaN, _ | _, NaN => NaN
  | Fin x, Fin y =>
      if Reqb y 0 then
        if Reqb x 0 then NaN else inf_of (Rltb 0 x)
      else Fin (x / y)
  | Fin _, (PInf | NInf) => Fin 0
  | PInf, Fin y => inf_over true y
  | NInf, Fin y => inf_over false y
  | (PInf | NInf), (PInf | NInf) => NaN
  end.

Definition lt (a b : num) : bool :=
  match a, b with
  | NaN, _ | _, NaN => false
  | Fin x, Fin y => Rltb x y
  | NInf, (Fin _ | PInf) => true
  | Fin _, PInf => true
  | _, _ => false
  end.

Definition le (a b : num) : bool :=
  match a, b with
  | NaN, _ | _, NaN => false
  | Fin x, Fin y => Rleb x y
  | NInf, _ => true
  | _, PInf => true
  | _, _ => false
  end.

Definition gt (a b : num) : bool := lt b a.
Definition ge (a b : num) : bool := le b a.

Infix "+" := add : num_scope.
Infix "-" := sub : num_scope.
Infix "*" := mul : num_scope.
Infix "/" := div : num_scope.
Infix "<?" := lt (at level 70, no associativity) : num_scope.
Infix "<=?" := le (at level 70, no associativity) : num_scope.
Infix ">?" := gt (at level 70, no associativity) : num_scope.
Infix ">=?" := ge (at level 70, no associativity) : num_scope.

(** *** The [Math] object *)

Module Math.

Definition sqrt (a : num) : num :=
  match a with
  | Fin x => if Rltb x 0 then NaN else Fin (R_sqrt.sqrt x)
  | PInf => PInf
  | NInf | NaN => NaN
  end.

Definition abs (a : num) : num :=
  match a with
  | Fin x => Fin (Rabs x)
  | PInf | NInf => PInf
  | NaN => NaN
  end.

(** The least integer that is not below [x]. *)
Definition Zceil (x : R) : Z := (1 - up (- x))%Z.

Definition ceil (a : num) : num :=
  match a with
  | Fin x => Fin (IZR (Zceil x))
  | _ => a
  end.

(** [Math.pow(a, n)] for a natural exponent [n]. *)
Definition pow (a : num) (n : nat) : num :=
  match n with
  | O => Fin 1
  | S _ =>
      match a with
      | Fin x => Fin (x ^ n)
      | PInf => PInf
      | NInf => if Nat.even n then PInf else NInf
      | NaN => NaN
      end
  end.

Definition min (a b : nat) : nat := Nat.min a b.

End Math.

(** *** Arrays of numbers *)

(** [xs.reduce((sum, val) => sum + val, 0)] *)
Definition reduce_sum (xs : list num) : num :=
  fold_left (fun sum val => (sum + val)%num) xs (Fin 0).

(** [xs.length] as a number. *)
Definition length_num (xs : list num) : num := Fin (INR (List.length xs)).

(** [xs.slice(0, e)] for an integer [e]: a negative end counts from the end
    of the array. *)
Definition slice0 (xs : list num) (e : Z) : list num :=
  if (e <? 0)%Z then firstn (List.length xs - Z.to_nat (- e)) xs
  else firstn (Z.to_nat e) xs.

(** What a call produces: a value, or a thrown [Error] with its message. *)
Inductive completion (A : Type) : Type :=
| Return (a : A)
| Throw (message : string).
Arguments Return {A} a.
Arguments Throw {A} message.

(** A string used as a condition is true unless it is empty. *)
Definition truthy (s : string) : bool :=
  match s with
  | EmptyString => false
  | String _ _ => true
  end.

(** [if (e) throw new Error(e)] for [e : string | null]: the message thrown,
    if any. *)
Definition thrown (e : option string) : option string :=
  match e with
  | Some message => if truthy message then Some message else None
  | None => None
  end.

(** ** The normal distribution of [jstat] *)

Section Jstat.

(** The standard normal distribution function and its quantile function,
    as [jstat] computes them on finite arguments. *)
Variable Phi : R -> R.
Variable PhiInv : R -> R.

(** [jstat.normal.cdf(x, 0, 1)]: [0.5 * (1 + erf(x / sqrt 2))], where [erf]
    is [1] at [+Infinity], [-1] at [-Infinity] and [NaN] at [NaN]. *)
Definition normal_cdf (x : num) : num :=
  match x with
  | Fin r => Fin (Phi r)
  | PInf => Fin 1
  | NInf => Fin 0
  | NaN => NaN
  end.

(** [jstat.normal.inv(p, 0, 1)]: [erfcinv] is saturated, it gives one value
    for every argument [>= 2] and one for every argument [<= 0], so the
    quantile of [±Infinity] is that of [1] and [0]. *)
Definition normal_inv01 (p : num) : num :=
  match p with
  | Fin r => Fin (PhiInv r)
  | PInf => Fin (PhiInv 1)
  | NInf => Fin (PhiInv 0)
  | NaN => NaN
  end.

(** [jstat.normal.inv(p, mean, std)] is [std * inv(p, 0, 1) + mean]. *)
Definition normal_inv (p mean std : num) : num :=
  (std * normal_inv01 p + mean)%num.

End Jstat.

(** One entry of the array returned by [sequentialAnalysis].  [sampleSize] is
    the loop counter, an integer-valued number. *)
Module Checkpoint.
Record t : Type := mk {
  sampleSize : Z;
  pValue : num;
  relativeImprovement : num
}.
End Checkpoint.

(** The two-element arrays and the [{control, variant}] object of the
    analysis result. *)
Record PerArm (A : Type) : Type := mkPerArm {
  control : A;
  variant : A
}.
Arguments mkPerArm {A} control variant.
Arguments control {A} p.
Arguments variant {A} p.

(** ** [src/utils/abTestingUtils.ts] *)

Module AbTestingUtils.

Definition validateInputs (baselineRate mde confidence power : num)
  : option string :=
  if (baselineRate <=? Fin 0)%num || (baselineRate >=? Fin 1)%num
  then Some "Baseline rate must be between 0 and 1"%string
  else if (mde <=? Fin 0)%num || (mde >=? Fin 1)%num
  then Some "Minimum detectable effect must be between 0 and 1"%string
  else if (confidence <=? Fin (8/10))%num || (confidence >=? Fin 1)%num
  then Some "Confidence level must be between 0.8 and 1"%string
  else if (power <=? Fin (8/10))%num || (power >=? Fin 1)%num
  then Some "Statistical power must be between 0.8 and 1"%string
  else None.

Record OutcomeRecord : Type := mkOutcome {
  controlRate : num;
  variantRate : num;
  relativeImprovement : num;
  pValue : num;
  significant : bool;
  confidenceIntervals : PerArm (num * num);
  conclusion : string
}.

Section WithJstat.

Variable Phi : R -> R.
Variable PhiInv : R -> R.

(** [calculateSampleSize] over [num], where the arithmetic on finite values
    is exact: the model of what is validated, what is raised and how the
    special values propagate.  [Binary64.AbTestingUtils.calculateSampleSize]
    evaluates the same statements in binary64. *)
Definition calculateSampleSize (baselineRate mde confidence power : num)
  : completion num :=
  let validationError :=
    validateInputs baselineRate mde confidence power in
  match thrown validationError with
  | Some message => Throw message
  | None =>
      let alpha := (Fin 1 - confidence)%num in
      let zAlpha :=
        normal_inv PhiInv (Fin 1 - alpha / Fin 2)%num (Fin 0) (Fin 1) in
      let zBeta := normal_inv PhiInv power (Fin 0) (Fin 1) in
      let p1 := baselineRate in
      let p2 := (p1 * (Fin 1 + mde))%num in
      let pPooled := ((p1 + p2) / Fin 2)%num in
      let sampleSize :=
        (Fin 2 * pPooled * (Fin 1 - pPooled)
         * Math.pow (zAlpha + zBeta) 2
         / Math.pow (p2 - p1) 2)%num in
      Return (Math.ceil sampleSize)
  end.

Definition analyzeResults (controlData variantData : list num)
  (confidence : num) : completion OutcomeRecord :=
  let controlConv := (reduce_sum controlData / length_num controlData)%num in
  let variantConv := (reduce_sum variantData / length_num variantData)%num in
  let n1 := length_num controlData in
  let n2 := length_num variantData in
  let pPooled :=
    ((reduce_sum controlData + reduce_sum variantData) / (n1 + n2))%num in
  let se :=
    Math.sqrt
      (pPooled * (Fin 1 - pPooled) * (Fin 1 / n1 + Fin 1 / n2))%num in
  let zScore := ((variantConv - controlConv) / se)%num in
  let pValue :=
    (Fin 2 * (Fin 1 - normal_cdf Phi (Math.abs zScore)))%num in
  let zAlpha :=
    normal_inv PhiInv (Fin 1 - (Fin 1 - confidence) / Fin 2)%num
      (Fin 0) (Fin 1) in
  let ciControl :=
    ((controlConv
      - zAlpha * Math.sqrt (controlConv * (Fin 1 - controlConv) / n1))%num,
     (controlConv
      + zAlpha * Math.sqrt (controlConv * (Fin 1 - controlConv) / n1))%num)
  in
  let ciVariant :=
    ((variantConv
      - zAlpha * Math.sqrt (variantConv * (Fin 1 - variantConv) / n2))%num,
     (variantConv
      + zAlpha * Math.sqrt (variantConv * (Fin 1 - variantConv) / n2))%num)
  in
  let significant := (pValue <? Fin 1 - confidence)%num in
  let conclusion := "The test results are inconclusive."%string in
  let conclusion :=
    if significant then
      if (variantConv >? controlConv)%num
      then "The variant outperformed the control group significantly."%string
      else "The control group outperformed the variant significantly."%string
    else conclusion in
  Return {|
    controlRate := controlConv;
    variantRate := variantConv;
    relativeImprovement := ((variantConv - controlConv) / controlConv)%num;
    pValue := pValue;
    significant := significant;
    confidenceIntervals :=
      {| control := ciControl; variant := ciVariant |};
    conclusion := conclusion
  |}.

(** The [for] loop of [sequentialAnalysis], entered at its test with the
    counter [size].  The loop has no bound of its own, so the model
    takes [fuel], the number of times the test may be evaluated, and
    answers [None] when the loop is still running after that. *)
Fixpoint sequentialAnalysis_loop (fuel : nat)
  (controlData variantData : list num) (minSampleSize : Z)
  (confidence : num) (currentSize : Z) (size : Z)
  (results : list Checkpoint.t) : option (completion (list Checkpoint.t)) :=
  match fuel with
  | O => None
  | S fuel' =>
      if (size <=? currentSize)%Z then
        let controlSample := slice0 controlData size in
        let variantSample := slice0 variantData size in
        match analyzeResults controlSample variantSample confidence with
        | Throw message => Some (Throw message)
        | Return result =>
            sequentialAnalysis_loop fuel' controlData variantData
              minSampleSize confidence currentSize
              (size + minSampleSize)%Z
              (results ++ [ {| Checkpoint.sampleSize := size;
                               Checkpoint.pValue := pValue result;
                               Checkpoint.relativeImprovement :=
                                 relativeImprovement result |} ])
        end
      else Some (Return results)
  end.

Definition sequentialAnalysis (fuel : nat)
  (controlData variantData : list num) (minSampleSize : Z)
  (confidence : num) : option (completion (list Checkpoint.t)) :=
  let results := [] in
  let currentSize :=
    Z.of_nat (Math.min (List.length controlData) (List.length variantData))
  in
  sequentialAnalysis_loop fuel controlData variantData minSampleSize
    confidence currentSize minSampleSize results.

End WithJstat.

End AbTestingUtils.

(** ** [src/unnamed/part_000], imported by its callers as [utils/statistics] *)

Module Statistics.

Record OutcomeRecord : Type := mkOutcome {
  controlRate : num;
  variantRate : num;
  relativeImprovement : num;
  pValue : num;
  significant : bool;
  confidenceIntervals : PerArm num
}.

Definition validateInputs (value mde confidence power : num)
  : option string :=
  if (value <? Fin 0)%num || (value >? Fin 1)%num
  then Some "Value must be between 0 and 1"%string
  else if (mde <? Fin 0)%num || (mde >? Fin 1)%num
  then Some "MDE must be between 0 and 1"%string
  else if (confidence <? Fin (8/10))%num || (confidence >? Fin 1)%num
  then Some "Confidence must be between 0.8 and 1"%string
  else if (power <? Fin (8/10))%num || (power >? Fin 1)%num
  then Some "Power must be between 0.8 and 1"%string
  else None.

Section WithJstat.

Variable Phi : R -> R.
Variable PhiInv : R -> R.

(** [calculateSampleSize] over [num], with exact arithmetic on finite
    values; [Binary64.Statistics.calculateSampleSize] evaluates the same
    statements in binary64. *)
Definition calculateSampleSize (baselineRate mde confidence power : num)
  : completion num :=
  let alpha := (Fin 1 - confidence)%num in
  let zAlpha :=
    normal_inv PhiInv (Fin 1 - alpha / Fin 2)%num (Fin 0) (Fin 1) in
  let zBeta := normal_inv PhiInv power (Fin 0) (Fin 1) in
  let p1 := baselineRate in
  let p2 := (p1 * (Fin 1 + mde))%num in
  let pPooled := ((p1 + p2) / Fin 2)%num in
  let sampleSize :=
    (Fin 2 * pPooled * (Fin 1 - pPooled)
     * Math.pow (zAlpha + zBeta) 2
     / Math.pow (p2 - p1) 2)%num in
  Return (Math.ceil sampleSize).

Definition analyzeResults (controlData variantData : list num)
  (confidence : num) : completion OutcomeRecord :=
  let controlConv := (reduce_sum controlData / length_num controlData)%num in
  let variantConv := (reduce_sum variantData / length_num variantData)%num in
  let n1 := length_num controlData in
  let n2 := length_num variantData in
  let pPooled :=
    ((reduce_sum controlData + reduce_sum variantData) / (n1 + n2))%num in
  let se :=
    Math.sqrt
      (pPooled * (Fin 1 - pPooled) * (Fin 1 / n1 + Fin 1 / n2))%num in
  let zScore := ((variantConv - controlConv) / se)%num in
  let pValue :=
    (Fin 2 * (Fin 1 - normal_cdf Phi (Math.abs zScore)))%num in
  let ciControl :=
    normal_inv PhiInv confidence controlConv
      (Math.sqrt (controlConv * (Fin 1 - controlConv) / n1)%num) in
  let ciVariant :=
    normal_inv PhiInv confidence variantConv
      (Math.sqrt (variantConv * (Fin 1 - variantConv) / n2)%num) in
  Return {|
    controlRate := controlConv;
    variantRate := variantConv;
    relativeImprovement := ((variantConv - controlConv) / controlConv)%num;
    pValue := pValue;
    significant := (pValue <? Fin 1 - confidence)%num;
    confidenceIntervals :=
      {| control := ciControl; variant := ciVariant |}
  |}.

Fixpoint sequentialAnalysis_loop (fuel : nat)
  (controlData variantData : list num) (minSampleSize : Z)
  (confidence : num) (currentSize : Z) (size : Z)
  (results : list Checkpoint.t) : option (completion (list Checkpoint.t)) :=
  match fuel with
  | O => None
  | S fuel' =>
      if (size <=? currentSize)%Z then
        let controlSample := slice0 controlData size in
        let variantSample := slice0 variantData size in
        match analyzeResults controlSample variantSample confidence with
        | Throw message => Some (Throw message)
        | Return result =>
            sequentialAnalysis_loop fuel' controlData variantData
              minSampleSize confidence currentSize
              (size + minSampleSize)%Z
              (results ++ [ {| Checkpoint.sampleSize := size;
                               Checkpoint.pValue := pValue result;
                               Checkpoint.relativeImprovement :=
                                 relativeImprovement result |} ])
        end
      else Some (Return results)
  end.

Definition sequentialAnalysis (fuel : nat)
  (controlData variantData : list num) (minSampleSize : Z)
  (confidence : num) : option (completion (list Checkpoint.t)) :=
  let results := [] in
  let currentSize :=
    Z.of_nat (Math.min (List.length controlData) (List.length variantData))
  in
  sequentialAnalysis_loop fuel controlData variantData minSampleSize
    confidence currentSize minSampleSize results.

End WithJstat.

End Statistics.

(** ** Specification-level vocabulary *)

(** A [{0,1}]-sequence, and the array of numbers that carries it. *)
Definition of_bit (b : bool) : num := if b then Fin 1 else Fin 0.
Definition of_bits (bs : list bool) : list num := map of_bit bs.

(** Number of successes, sample mean and pooled proportion of the spec. *)
Definition successes (bs : list bool) : nat := count_occ bool_dec bs true.

Definition mean (bs : list bool) : R :=
  INR (successes bs) / INR (List.length bs).

Definition pooledRate (bs1 bs2 : list bool) : R :=
  (INR (successes bs1) + INR (successes bs2))
  / (INR (List.length bs1) + INR (List.length bs2)).

(** [lo < x < hi], the membership test of an open interval. *)
Definition strictly_between (lo hi x : R) : bool := Rltb lo x && Rltb x hi.

(** The message of the first check that does not hold, if any. *)
Fixpoint first_failure (checks : list (bool * string)) : option string :=
  match checks with
  | [] => None
  | (holds, message) :: rest =>
      if holds then first_failure rest else Some message
  end.

(** Standard error under the pooled null, z-score and two-sided p-value of
    the spec.  The z-score is a quotient of numbers: it is [NaN] or infinite
    when the standard error vanishes. *)
Definition standardError (bs1 bs2 : list bool) : R :=
  sqrt (pooledRate bs1 bs2 * (1 - pooledRate bs1 bs2)
        * (1 / INR (List.length bs1) + 1 / INR (List.length bs2))).

Definition zScore (bs1 bs2 : list bool) : num :=
  (Fin (mean bs2 - mean bs1) / Fin (standardError bs1 bs2))%num.

Definition twoSidedP (Phi : R -> R) (z : num) : num :=
  (Fin 2 * (Fin 1 - normal_cdf Phi (Math.abs z)))%num.

(** Unpooled standard error of one arm, the scale of its Wald interval. *)
Definition armStandardError (bs : list bool) : R :=
  sqrt (mean bs * (1 - mean bs) / INR (List.length bs)).

(** A concrete distribution function and its inverse, to run the functions
    on where a closed statement needs one: [x + 1/2] and [p - 1/2].  Its
    quantiles above the median are positive, as those of [jstat] are. *)
Definition linear_cdf (x : R) : R := x + 1/2.
Definition linear_inv (p : R) : R := p - 1/2.

(** The prefix lengths [k, 2k, ..., nk] at which checkpoints are due. *)
Definition multiples (k : Z) (n : nat) : list Z :=
  map (fun i => (Z.of_nat (S i) * k)%Z) (seq 0 n).

(** [cp] is the checkpoint due at prefix length [size]: it records [size]
    and the [pValue] and [relativeImprovement] that [analyzeResults] gives on
    the prefixes of that length. *)
Definition is_checkpoint (Phi PhiInv : R -> R)
  (controlData variantData : list num) (confidence : num)
  (size : Z) (cp : Checkpoint.t) : Prop :=
  Checkpoint.sampleSize cp = size
  /\ exists r : AbTestingUtils.OutcomeRecord,
       AbTestingUtils.analyzeResults Phi PhiInv
         (firstn (Z.to_nat size) controlData)
         (firstn (Z.to_nat size) variantData) confidence = Return r
       /\ Checkpoint.pValue cp = AbTestingUtils.pValue r
       /\ Checkpoint.relativeImprovement cp
          = AbTestingUtils.relativeImprovement r.

(** ** Vocabulary of the further properties *)

(** [x] is [NaN] or a finite number strictly between [lo] and [hi]: what
    the pair of tests [x <= lo || x >= hi] lets through. *)
Definition nan_or_inside (lo hi : R) (x : num) : Prop :=
  x = NaN \/ exists r : R, x = Fin r /\ lo < r < hi.

(** [x] is [NaN] or a finite number of the closed interval [[lo, hi]]: what
    the pair of tests [x < lo || x > hi] lets through. *)
Definition nan_or_within (lo hi : R) (x : num) : Prop :=
  x = NaN \/ exists r : R, x = Fin r /\ lo <= r <= hi.

(** The number [calculateSampleSize] rounds up, on finite arguments:
    [2 pbar (1 - pbar) (zAlpha + zBeta)^2 / (p2 - p1)^2]. *)
Definition sampleSizeClosedForm (PhiInv : R -> R)
  (baselineRate mde confidence power : R) : R :=
  let p1 := baselineRate in
  let p2 := p1 * (1 + mde) in
  let pbar := (p1 + p2) / 2 in
  let zAlpha := PhiInv (1 - (1 - confidence) / 2) in
  let zBeta := PhiInv power in
  2 * pbar * (1 - pbar) * (zAlpha + zBeta) ^ 2 / (p2 - p1) ^ 2.

(** A distribution function on the whole line, for the closed statements
    that need its range: the uniform law on [[-1/2, 1/2]]. *)
Definition uniform_cdf (x : R) : R := Rmax 0 (Rmin 1 (x + 1/2)).

(** The presets of [abTestingUtils.ts]. *)
Module UseCase.
Record t : Type := mk {
  name : string;
  description : string;
  baselineRate : num;
  mde : num
}.
End UseCase.

Definition useCases : list UseCase.t :=
  [ {| UseCase.name := "E-commerce Button Color";
       UseCase.description :=
         "Testing if changing the 'Add to Cart' button color from blue to green increases conversions";
       UseCase.baselineRate := Fin (5/100);
       UseCase.mde := Fin (2/10) |};
    {| UseCase.name := "Landing Page Headline";
       UseCase.description :=
         "Comparing two different headlines on a landing page to see which one leads to more sign-ups";
       UseCase.baselineRate := Fin (1/10);
       UseCase.mde := Fin (15/100) |};
    {| UseCase.name := "Email Subject Line";
       UseCase.description :=
         "Testing two different email subject lines to improve open rates";
       UseCase.baselineRate := Fin (22/100);
       UseCase.mde := Fin (1/10) |} ]%string.

(** ** The callers: JavaScript values and the page state *)

(** The values the shape checks of the pages inspect. *)
#[local] Unset Elimination Schemes.
Inductive jsval : Type :=
| JUndefined
| JNull
| JBool (b : bool)
| JNum (n : num)
| JStr (s : string)
| JArr (items : list jsval)
| JObj (fields : list (string * jsval)).
#[local] Set Elimination Schemes.

Definition typeof (v : jsval) : string :=
  match v with
  | JUndefined => "undefined"
  | JBool _ => "boolean"
  | JNum _ => "number"
  | JStr _ => "string"
  | JNull | JArr _ | JObj _ => "object"
  end.

(** [Array.isArray(v)] *)
Definition isArray (v : jsval) : bool :=
  match v with
  | JArr _ => true
  | _ => false
  end.

Fixpoint lookup (key : string) (fields : list (string * jsval)) : jsval :=
  match fields with
  | [] => JUndefined
  | (k, v) :: rest => if String.eqb k key then v else lookup key rest
  end.

(** [v.key], for a key that is neither an index nor the name of a built-in
    property: reading it off [null] or [undefined] raises a [TypeError]
    (its message is the engine's and is left at that name), off an object
    it gives the field or [undefined], off anything else [undefined]. *)
Definition get (v : jsval) (key : string) : completion jsval :=
  match v with
  | JUndefined | JNull => Throw "TypeError"
  | JObj fields => Return (lookup key fields)
  | _ => Return JUndefined
  end.

(** [v?.key] *)
Definition get_optional (v : jsval) (key : string) : completion jsval :=
  match v with
  | JUndefined | JNull => Return JUndefined
  | _ => get v key
  end.

(** [a && b] on tests that may raise: [b] is evaluated only when [a] holds. *)
Definition and_also (a b : completion bool) : completion bool :=
  match a with
  | Return true => b
  | _ => a
  end.
Infix "&&&" := and_also (at level 40, left associativity).

(** [typeof v.key === type] *)
Definition field_has_type (v : jsval) (key type : string)
  : completion bool :=
  match get v key with
  | Return field => Return (String.eqb (typeof field) type)
  | Throw message => Throw message
  end.

(** [items.every(test)] *)
Fixpoint every (test : jsval -> completion bool) (items : list jsval)
  : completion bool :=
  match items with
  | [] => Return true
  | item :: rest =>
      match test item with
      | Return true => every test rest
      | other => other
      end
  end.

(** The object literal [analyzeResults] of [abTestingUtils.ts] returns. *)
Definition outcome_object (r : AbTestingUtils.OutcomeRecord) : jsval :=
  JObj
    [ ("controlRate", JNum (AbTestingUtils.controlRate r));
      ("variantRate", JNum (AbTestingUtils.variantRate r));
      ("relativeImprovement", JNum (AbTestingUtils.relativeImprovement r));
      ("pValue", JNum (AbTestingUtils.pValue r));
      ("significant", JBool (AbTestingUtils.significant r));
      ("confidenceIntervals",
       JObj
         [ ("control",
            let ciControl := control (AbTestingUtils.confidenceIntervals r) in
            JArr [ JNum (fst ciControl); JNum (snd ciControl) ]);
           ("variant",
            let ciVariant := variant (AbTestingUtils.confidenceIntervals r) in
            JArr [ JNum (fst ciVariant); JNum (snd ciVariant) ])
         ]);
      ("conclusion", JStr (AbTestingUtils.conclusion r)) ]%string.

(** The object literal [sequentialAnalysis] pushes. *)
Definition checkpoint_object (cp : Checkpoint.t) : jsval :=
  JObj
    [ ("sampleSize", JNum (Fin (IZR (Checkpoint.sampleSize cp))));
      ("pValue", JNum (Checkpoint.pValue cp));
      ("relativeImprovement", JNum (Checkpoint.relativeImprovement cp))
    ]%string.

(** [Array(size)]: the length of the array created, when [size] is an
    integer from [0] to [2^32 - 1]; otherwise a [RangeError] is raised. *)
Definition array_length (size : num) : option nat :=
  match size with
  | Fin x =>
      let n := (up x - 1)%Z in
      if Reqb (IZR n) x && (0 <=? n)%Z && (n <? 2 ^ 32)%Z
      then Some (Z.to_nat n)
      else None
  | _ => None
  end.

(** [isNaN(n)] *)
Definition isNaN (n : num) : bool :=
  match n with
  | NaN => true
  | _ => false
  end.

(** [if (e)] for [e : string | null]: the string, when it is not empty. *)
Definition present (e : option string) : option string :=
  match e with
  | Some message => if truthy message then Some message else None
  | None => None
  end.

(** The [params] state of the pages.  [set name v] is
    [{ ...prev, [name]: v }]; a key other than the four fields adds a
    property that nothing reads. *)
Module Params.
Record t : Type := mk {
  baselineRate : num;
  mde : num;
  confidence : num;
  power : num
}.

Definition set (name : string) (v : num) (prev : t) : t :=
  if String.eqb name "baselineRate" then
    {| baselineRate := v; mde := mde prev;
       confidence := confidence prev; power := power prev |}
  else if String.eqb name "mde" then
    {| baselineRate := baselineRate prev; mde := v;
       confidence := confidence prev; power := power prev |}
  else if String.eqb name "confidence" then
    {| baselineRate := baselineRate prev; mde := mde prev;
       confidence := v; power := power prev |}
  else if String.eqb name "power" then
    {| baselineRate := baselineRate prev; mde := mde prev;
       confidence := confidence prev; power := v |}
  else prev.
End Params.

(** The [errors] state of the pages: a message, or nothing, per key. *)
Module Errors.
Definition t : Type := string -> option string.

(** [{}] *)
Definition empty : t := fun _ => None.

(** [{ ...prev, [name]: message }] *)
Definition set (name : string) (message : option string) (prev : t) : t :=
  fun key => if String.eqb key name then message else prev key.

(** [{ form: message }] *)
Definition form (message : string) : t := set "form" (Some message) empty.
End Errors.

(** ** [src/ABTestingFramework.tsx] *)

Module Page.

(** [handleInputChange], from the parsed [numValue = parseFloat(value)] on;
    [params] is the state of the render the handler belongs to. *)
Definition handleInputChange (params : Params.t) (errors : Errors.t)
  (name : string) (numValue : num) : Params.t * Errors.t :=
  if isNaN numValue then
    (params, Errors.set name (Some "Please enter a valid number"%string) errors)
  else
    let error :=
      Statistics.validateInputs numValue (Params.mde params)
        (Params.confidence params) (Params.power params) in
    match present error with
    | Some message => (params, Errors.set name (Some message) errors)
    | None => (Params.set name numValue params, Errors.set name None errors)
    end.

End Page.

(** ** [src/components/ABTestingFramework.tsx] *)

Module Component.

Definition isValidTestResults (results : jsval) : completion bool :=
  Return (String.eqb (typeof results) "object")
  &&& field_has_type results "sampleSize" "number"
  &&& field_has_type results "pValue" "number"
  &&& field_has_type results "relativeImprovement" "number".

Definition isValidSequentialAnalysis (data : jsval) : completion bool :=
  match data with
  | JArr items =>
      every (fun point =>
               Return (String.eqb (typeof point) "object")
               &&& field_has_type point "sampleSize" "number"
               &&& field_has_type point "pValue" "number"
               &&& field_has_type point "relativeImprovement" "number")
        items
  | _ => Return false
  end.

(** [generateTestData]; [random k] is what the [k]-th call of
    [Math.random()] returns, counted from the start of this call.  Each
    element draws twice, the left operand of [<] first. *)
Definition generateTestData (random : nat -> R) (size baseRate : num)
  : completion (list num) :=
  let noise := Fin (1/10) in
  match array_length size with
  | None => Throw "RangeError"
  | Some n =>
      Return
        (map (fun i =>
                if (Fin (random (2 * i)%nat)
                    <? baseRate
                       * (Fin 1
                          + (Fin (random (2 * i + 1)%nat) - Fin (5/10))
                            * noise))%num
                then Fin 1 else Fin 0)
           (seq 0 n))
  end.

(** A plain object used as a number: its primitive value is the string
    ["[object Object]"], which is not a number. *)
Definition ObjectToNumber : num := NaN.

Record State : Type := mkState {
  params : Params.t;
  sampleSize : num;
  activeTab : string;
  errors : Errors.t;
  isCalculating : bool
}.

Section WithEnvironment.

(** A string used as a number. *)
Variable StringToNumber : string -> num.
Variable PhiInv : R -> R.

(** [handleInputChange], from [numValue = Number(value)] on.  The call
    [validateInputs(name, numValue, params, errors)] hands a string and two
    objects to parameters that are compared with numbers. *)
Definition handleInputChange (params : Params.t) (errors : Errors.t)
  (name : string) (numValue : num) : Params.t * Errors.t :=
  let error :=
    AbTestingUtils.validateInputs (StringToNumber name) numValue
      ObjectToNumber ObjectToNumber in
  match present error with
  | Some message => (params, Errors.set name (Some message) errors)
  | None => (Params.set name numValue params, Errors.set name None errors)
  end.

Definition validateForm (params : Params.t) : bool * Errors.t :=
  let validationError :=
    AbTestingUtils.validateInputs (Params.baselineRate params)
      (Params.mde params) (Params.confidence params) (Params.power params) in
  match present validationError with
  | Some message => (false, Errors.form message)
  | None => (true, Errors.empty)
  end.

Definition calculateSize (st : State) : State :=
  let (valid, formErrors) := validateForm (params st) in
  if negb valid then
    {| params := params st; sampleSize := sampleSize st;
       activeTab := activeTab st; errors := formErrors;
       isCalculating := isCalculating st |}
  else
    let attempt :=
      match AbTestingUtils.calculateSampleSize PhiInv
              (Params.baselineRate (params st)) (Params.mde (params st))
              (Params.confidence (params st)) (Params.power (params st))
      with
      | Throw message => Throw message
      | Return size =>
          if (size <=? Fin 0)%num
          then Throw "Invalid sample size calculated"%string
          else Return size
      end in
    match attempt with
    | Return size =>
        {| params := params st; sampleSize := size; activeTab := "run";
           errors := formErrors; isCalculating := false |}
    | Throw errorMessage =>
        {| params := params st; sampleSize := sampleSize st;
           activeTab := activeTab st; errors := Errors.form errorMessage;
           isCalculating := false |}
    end.

End WithEnvironment.

End Component.

(** ** [src/unnamed/part_001], an earlier state of the component *)

Module Part001.

Definition isValidTestResults (results : jsval) : completion bool :=
  Return (String.eqb (typeof results) "object")
  &&& field_has_type results "controlRate" "number"
  &&& field_has_type results "variantRate" "number"
  &&& match get results "confidenceIntervals" with
      | Return intervals =>
          match get_optional intervals "control" with
          | Return v => Return (isArray v)
          | Throw message => Throw message
          end
      | Throw message => Throw message
      end
  &&& match get results "confidenceIntervals" with
      | Return intervals =>
          match get_optional intervals "variant" with
          | Return v => Return (isArray v)
          | Throw message => Throw message
          end
      | Throw message => Throw message
      end
  &&& field_has_type results "relativeImprovement" "number"
  &&& field_has_type results "pValue" "number"
  &&& field_has_type results "significant" "boolean"
  &&& field_has_type results "conclusion" "string".

Definition isValidSequentialAnalysis (data : jsval) : completion bool :=
  match data with
  | JArr items =>
      every (fun point =>
               Return (String.eqb (typeof point) "object")
               &&& field_has_type point "sampleSize" "number"
               &&& field_has_type point "pValue" "number"
               &&& field_has_type point "relativeImprovement" "number")
        items
  | _ => Return false
  end.

End Part001.

(** ** The sample-size calculator in binary64 *)

Module Binary64.

Local Open Scope float_scope.

Module Math.

(** [Math.ceil].  A finite non-zero double is [+/- m * 2^e] for a positive
    integer [m < 2^53]; with [e >= 0] it is an integer already, otherwise
    its ceiling is computed on the integers and converted back, which is
    exact as the ceiling is at most [2^52] in magnitude.  The ceiling of a
    number in (-1, 0) is [-0]; zeros, infinities and [NaN] are returned as
    they are. *)
Definition ceil (x : float) : float :=
  match Prim2SF x with
  | S754_finite negative m e =>
      if (0 <=? e)%Z then x
      else
        let d := (2 ^ (- e))%Z in
        let q := (Z.pos m / d)%Z in
        let n :=
          if negative then q
          else if (Z.pos m mod d =? 0)%Z then q else (q + 1)%Z in
        let magnitude := of_uint63 (Uint63.of_Z n) in
        if negative then - magnitude else magnitude
  | _ => x
  end.

(** [Math.pow(x, 2)], the only power the code takes: the rounded product
    [x * x]. *)
Definition pow2 (x : float) : float := x * x.

End Math.

(** [src/utils/abTestingUtils.ts] *)
Module AbTestingUtils.

Definition validateInputs (baselineRate mde confidence power : float)
  : option string :=
  if (baselineRate <=? 0) || (1 <=? baselineRate)
  then Some "Baseline rate must be between 0 and 1"%string
  else if (mde <=? 0) || (1 <=? mde)
  then Some "Minimum detectable effect must be between 0 and 1"%string
  else if (confidence <=? 0.8) || (1 <=? confidence)
  then Some "Confidence level must be between 0.8 and 1"%string
  else if (power <=? 0.8) || (1 <=? power)
  then Some "Statistical power must be between 0.8 and 1"%string
  else None.

Section WithJstat.

(** [jstat.normal.inv(p, mean, std)], a function of the external package
    [jstat]. *)
Variable jstat_normal_inv : float -> float -> float -> float.

Definition calculateSampleSize (baselineRate mde confidence power : float)
  : completion float :=
  let validationError :=
    validateInputs baselineRate mde confidence power in
  match thrown validationError with
  | Some message => Throw message
  | None =>
      let alpha := 1 - confidence in
      let zAlpha := jstat_normal_inv (1 - alpha / 2) 0 1 in
      let zBeta := jstat_normal_inv power 0 1 in
      let p1 := baselineRate in
      let p2 := p1 * (1 + mde) in
      let pPooled := (p1 + p2) / 2 in
      let sampleSize :=
        2 * pPooled * (1 - pPooled) * Math.pow2 (zAlpha + zBeta)
        / Math.pow2 (p2 - p1) in
      Return (Math.ceil sampleSize)
  end.

End WithJstat.

End AbTestingUtils.

(** [src/unnamed/part_000] *)
Module Statistics.

Section WithJstat.

Variable jstat_normal_inv : float -> float -> float -> float.

Definition calculateSampleSize (baselineRate mde confidence power : float)
  : completion float :=
  let alpha := 1 - confidence in
  let zAlpha := jstat_normal_inv (1 - alpha / 2) 0 1 in
  let zBeta := jstat_normal_inv power 0 1 in
  let p1 := baselineRate in
  let p2 := p1 * (1 + mde) in
  let pPooled := (p1 + p2) / 2 in
  let sampleSize :=
    2 * pPooled * (1 - pPooled) * Math.pow2 (zAlpha + zBeta)
    / Math.pow2 (p2 - p1) in
  Return (Math.ceil sampleSize).

End WithJstat.

End Statistics.

(** [lo < x < hi] on doubles; false when [x] is [NaN]. *)
Definition strictly_between (lo hi x : float) : bool :=
  (lo <? x) && (x <? hi).

(** The closed form [2 pbar (1 - pbar) (zAlpha + zBeta)^2 / (p2 - p1)^2]
    for a standard normal quantile function [PhiInv], each operation rounded
    to binary64. *)
Definition sampleSizeClosedForm (PhiInv : float -> float)
  (baselineRate mde confidence power : float) : float :=
  let p1 := baselineRate in
  let p2 := p1 * (1 + mde) in
  let pbar := (p1 + p2) / 2 in
  let zAlpha := PhiInv (1 - (1 - confidence) / 2) in
  let zBeta := PhiInv power in
  2 * pbar * (1 - pbar) * ((zAlpha + zBeta) * (zAlpha + zBeta))
  / ((p2 - p1) * (p2 - p1)).

(** A stand-in for [jstat.normal.inv] in closed statements: the quantiles of
    the uniform law on [[-1/2, 1/2]], scaled and shifted. *)
Definition linear_inv (p mean std : float) : float := std * (p - 0.5) + mean.

End Binary64.

(** ** Deciding comparisons of reals *)

Lemma Rltb_true (x y : R) : x < y -> Rltb x y = true.
Proof. intros H. unfold Rltb. destruct (Rlt_dec x y); [reflexivity | lra]. Qed.

Lemma Rltb_false (x y : R) : y <= x -> Rltb x y = false.
Proof. intros H. unfold Rltb. destruct (Rlt_dec x y); [lra | reflexivity]. Qed.

Lemma Rleb_true (x y : R) : x <= y -> Rleb x y = true.
Proof. intros H. unfold Rleb. destruct (Rle_dec x y); [reflexivity | lra]. Qed.

Lemma Rleb_false (x y : R) : y < x -> Rleb x y = false.
Proof. intros H. unfold Rleb. destruct (Rle_dec x y); [lra | reflexivity]. Qed.

Lemma Reqb_true (x y : R) : x = y -> Reqb x y = true.
Proof.
  intros H. unfold Reqb. destruct (Req_dec_T x y); [reflexivity | lra].
Qed.

Lemma Reqb_false (x y : R) : x <> y -> Reqb x y = false.
Proof.
  intros H. unfold Reqb.
  destruct (Req_dec_T x y); [contradiction | reflexivity].
Qed.

Lemma Rleb_negb_Rltb (x y : R) : Rleb x y = negb (Rltb y x).
Proof.
  unfold Rleb, Rltb.
  destruct (Rle_dec x y), (Rlt_dec y x); simpl; try reflexivity; lra.
Qed.

(** Rewrites every comparison of reals whose outcome [lra] can settle. *)
Ltac settle_cmp :=
  repeat match goal with
  | |- context [Rltb ?x ?y] =>
      first [ rewrite (Rltb_true x y) by lra
            | rewrite (Rltb_false x y) by lra ]
  | |- context [Rleb ?x ?y] =>
      first [ rewrite (Rleb_true x y) by lra
            | rewrite (Rleb_false x y) by lra ]
  | |- context [Reqb ?x ?y] =>
      first [ rewrite (Reqb_true x y) by lra
            | rewrite (Reqb_false x y) by lra ]
  end.

(** ** Arithmetic of finite numbers *)

Lemma normal_inv_0_1 (PhiInv : R -> R) (p : num) :
  normal_inv PhiInv p (Fin 0) (Fin 1) = normal_inv01 PhiInv p.
Proof.
  unfold normal_inv. destruct p; simpl; try reflexivity;
    f_equal; ring.
Qed.

Lemma add_Fin (x y : R) : (Fin x + Fin y)%num = Fin (x + y).
Proof. reflexivity. Qed.

Lemma sub_Fin (x y : R) : (Fin x - Fin y)%num = Fin (x - y).
Proof. reflexivity. Qed.

Lemma mul_Fin (x y : R) : (Fin x * Fin y)%num = Fin (x * y).
Proof. reflexivity. Qed.

Lemma pow2_Fin (x : R) : Math.pow (Fin x) 2 = Fin (x ^ 2).
Proof. reflexivity. Qed.

Lemma normal_inv01_Fin (PhiInv : R -> R) (p : R) :
  normal_inv01 PhiInv (Fin p) = Fin (PhiInv p).
Proof. reflexivity. Qed.

Lemma normal_cdf_Fin (Phi : R -> R) (x : R) :
  normal_cdf Phi (Fin x) = Fin (Phi x).
Proof. reflexivity. Qed.

Create Rewrite HintDb fin_arith.
#[export] Hint Rewrite add_Fin sub_Fin mul_Fin pow2_Fin normal_inv01_Fin
  normal_cdf_Fin normal_inv_0_1 : fin_arith.

Lemma div_Fin (x y : R) : y <> 0 -> (Fin x / Fin y)%num = Fin (x / y).
Proof. intros H. unfold div. now rewrite Reqb_false. Qed.

Lemma Zceil_spec (x : R) :
  IZR (Math.Zceil x) - 1 < x <= IZR (Math.Zceil x).
Proof.
  unfold Math.Zceil. rewrite minus_IZR.
  destruct (archimed (- x)) as [Hgt Hle]. lra.
Qed.

Lemma Zceil_pos (x : R) : 0 < x -> (0 < Math.Zceil x)%Z.
Proof.
  intros Hx. apply lt_IZR. destruct (Zceil_spec x) as [_ Hle]. lra.
Qed.

(** Evaluates the arithmetic of finite numbers; a quotient is evaluated when
    [lra] finds its divisor different from zero. *)
Ltac fin_div :=
  match goal with
  | |- context [(Fin ?x / Fin ?y)%num] => rewrite (div_Fin x y) by lra
  end.
Ltac fin_simpl := repeat (progress autorewrite with fin_arith || fin_div).

Lemma pooled_variance_nonneg (p n1 n2 : R) :
  0 <= p <= 1 -> 0 < n1 -> 0 < n2 -> 0 <= p * (1 - p) * (1 / n1 + 1 / n2).
Proof.
  intros Hp Hn1 Hn2. apply Rmult_le_pos; [nra |].
  pose proof (Rinv_0_lt_compat n1 Hn1). pose proof (Rinv_0_lt_compat n2 Hn2).
  lra.
Qed.

(** ** InputValidator *)

Lemma outside_open (lo hi x : R) :
  (Fin x <=? Fin lo)%num || (Fin x >=? Fin hi)%num
  = negb (strictly_between lo hi x).
Proof.
  unfold ge, le, strictly_between. rewrite !Rleb_negb_Rltb.
  now rewrite negb_andb.
Qed.

(** C8 fails as stated: with the strict bounds of [abTestingUtils.ts] the
    call [validateInputs(0.1, 0.05, 0.95, 0.8)] does report a failure, since
    the power [0.8] sits on the excluded lower bound. *)
Lemma validateInputs_rejects_power_at_bound :
  AbTestingUtils.validateInputs
    (Fin (1/10)) (Fin (5/100)) (Fin (95/100)) (Fin (8/10))
  = Some "Statistical power must be between 0.8 and 1"%string.
Proof.
  unfold AbTestingUtils.validateInputs, ge, le. settle_cmp. reflexivity.
Qed.

(** C8, amended.  On finite arguments [validateInputs] checks, in this order,
    [baselineRate] in (0,1), [mde] in (0,1), [confidence] in (0.8,1) and
    [power] in (0.8,1), all bounds excluded, and returns the message of the
    first check that fails, or [null].  [validateInputs(0.1, 0.05, 0.95, 0.9)]
    passes, [validateInputs(0.1, 0.05, 0.95, 0.8)] fails on the power and
    [validateInputs(0.1, 0.05, 1.0, 0.8)] fails on the confidence. *)
Theorem validateInputs_strict_first_failure :
  (forall baselineRate mde confidence power : R,
      AbTestingUtils.validateInputs
        (Fin baselineRate) (Fin mde) (Fin confidence) (Fin power)
      = first_failure
          [ (strictly_between 0 1 baselineRate,
             "Baseline rate must be between 0 and 1"%string);
            (strictly_between 0 1 mde,
             "Minimum detectable effect must be between 0 and 1"%string);
            (strictly_between (8/10) 1 confidence,
             "Confidence level must be between 0.8 and 1"%string);
            (strictly_between (8/10) 1 power,
             "Statistical power must be between 0.8 and 1"%string) ])
  /\ AbTestingUtils.validateInputs
       (Fin (1/10)) (Fin (5/100)) (Fin (95/100)) (Fin (9/10)) = None
  /\ AbTestingUtils.validateInputs
       (Fin (1/10)) (Fin (5/100)) (Fin (95/100)) (Fin (8/10))
     = Some "Statistical power must be between 0.8 and 1"%string
  /\ AbTestingUtils.validateInputs
       (Fin (1/10)) (Fin (5/100)) (Fin 1) (Fin (8/10))
     = Some "Confidence level must be between 0.8 and 1"%string.
Proof.
  assert (general : forall b m c p : R,
    AbTestingUtils.validateInputs (Fin b) (Fin m) (Fin c) (Fin p)
    = first_failure
        [ (strictly_between 0 1 b,
           "Baseline rate must be between 0 and 1"%string);
          (strictly_between 0 1 m,
           "Minimum detectable effect must be between 0 and 1"%string);
          (strictly_between (8/10) 1 c,
           "Confidence level must be between 0.8 and 1"%string);
          (strictly_between (8/10) 1 p,
           "Statistical power must be between 0.8 and 1"%string) ]).
  { intros b m c p. unfold AbTestingUtils.validateInputs.
    rewrite !outside_open. simpl.
    destruct (strictly_between 0 1 b); simpl; [| reflexivity].
    destruct (strictly_between 0 1 m); simpl; [| reflexivity].
    destruct (strictly_between (8/10) 1 c); simpl; [| reflexivity].
    destruct (strictly_between (8/10) 1 p); reflexivity. }
  split; [exact general |].
  repeat split; rewrite general; unfold first_failure, strictly_between;
    settle_cmp; reflexivity.
Qed.

(** ** SampleSizeCalculator *)

(** *** Order and division on doubles *)






(** [Math.ceil] on some doubles. *)
Example Binary64_ceil_examples :
  Binary64.Math.ceil 1.2 = 2%float
  /\ Binary64.Math.ceil 3 = 3%float
  /\ Binary64.Math.ceil (-1.5) = (-1)%float
  /\ Binary64.Math.ceil (-0.5) = (-0)%float
  /\ Binary64.Math.ceil 5e-324 = 1%float
  /\ Binary64.Math.ceil 4503599627370495.5 = 4503599627370496%float
  /\ Binary64.Math.ceil 1e300 = 1e300%float
  /\ Binary64.Math.ceil infinity = infinity
  /\ Binary64.Math.ceil nan = nan.
Proof. vm_compute. repeat split. Qed.




(** *** Errors of [calculateSampleSize] *)

Lemma Zceil_unique (x : R) (n : Z) : IZR n - 1 < x <= IZR n -> Math.Zceil x = n.
Proof.
  intros [Hlo Hhi]. destruct (Zceil_spec x) as [Clo Chi].
  assert (n - 1 < Math.Zceil x)%Z by (apply lt_IZR; rewrite minus_IZR; lra).
  assert (Math.Zceil x - 1 < n)%Z by (apply lt_IZR; rewrite minus_IZR; lra).
  lia.
Qed.

(** C4 fails as stated: with [baselineRate = 0.9] and [mde = 0.5] the target
    rate is [1.35 >= 1], yet nothing is raised and a negative number is
    returned. *)
Lemma calculateSampleSize_no_error_above_one :
  AbTestingUtils.calculateSampleSize linear_inv
    (Fin (9/10)) (Fin (1/2)) (Fin (95/100)) (Fin (9/10))
  = Return (Fin (-1))
  /\ 9/10 * (1 + 1/2) >= 1.
Proof.
  split; [| lra].
  unfold AbTestingUtils.calculateSampleSize.
  replace (AbTestingUtils.validateInputs _ _ _ _) with (@None string).
  2:{ unfold AbTestingUtils.validateInputs, ge, le. settle_cmp. reflexivity. }
  cbn [thrown]. fin_simpl.
  rewrite ?div_Fin by (apply pow_nonzero; lra).
  cbn [Math.ceil]. do 2 f_equal.
  apply (f_equal IZR), Zceil_unique. unfold linear_inv.
  match goal with
  | |- _ < ?x <= _ => replace x with (- (1225/1152)) by field
  end.
  lra.
Qed.

Lemma validateInputs_message_truthy (b m c p : num) (message : string) :
  AbTestingUtils.validateInputs b m c p = Some message ->
  thrown (Some message) = Some message.
Proof.
  unfold AbTestingUtils.validateInputs.
  repeat match goal with
  | |- context [if ?cond then _ else _] => destruct cond
  end; intros H; inversion H; reflexivity.
Qed.

Section SampleSizeErrors.

Variable PhiInv : R -> R.

(** C4, amended.  [calculateSampleSize] raises an [Error] exactly when
    [validateInputs] reports a failure, with the message reported; this
    covers every call with [mde == 0].  The product
    [baselineRate * (1 + mde)] is not checked: for parameters strictly inside
    their bounds a number is returned whatever the product is. *)
Theorem calculateSampleSize_error_policy :
  (forall baselineRate confidence power : num,
      exists message : string,
        AbTestingUtils.calculateSampleSize PhiInv
          baselineRate (Fin 0) confidence power = Throw message)
  /\ (forall (baselineRate mde confidence power : num) (message : string),
        AbTestingUtils.validateInputs baselineRate mde confidence power
        = Some message ->
        AbTestingUtils.calculateSampleSize PhiInv
          baselineRate mde confidence power = Throw message)
  /\ (forall baselineRate mde confidence power : num,
        AbTestingUtils.validateInputs baselineRate mde confidence power
        = None ->
        exists n : num,
          AbTestingUtils.calculateSampleSize PhiInv
            baselineRate mde confidence power = Return n)
  /\ (forall baselineRate mde confidence power : R,
        0 < baselineRate < 1 -> 0 < mde < 1 ->
        8/10 < confidence < 1 -> 8/10 < power < 1 ->
        exists n : num,
          AbTestingUtils.calculateSampleSize PhiInv (Fin baselineRate)
            (Fin mde) (Fin confidence) (Fin power) = Return n).
Proof.
  assert (Hthrow : forall (b m c p : num) (message : string),
    AbTestingUtils.validateInputs b m c p = Some message ->
    AbTestingUtils.calculateSampleSize PhiInv b m c p = Throw message).
  { intros b m c p message H. unfold AbTestingUtils.calculateSampleSize.
    rewrite H, (validateInputs_message_truthy b m c p message H).
    reflexivity. }
  repeat split.
  - intros b c p.
    destruct (AbTestingUtils.validateInputs b (Fin 0) c p) as [message |] eqn:E.
    + exists message. now apply Hthrow.
    + exfalso. revert E. unfold AbTestingUtils.validateInputs.
      destruct ((b <=? Fin 0)%num || (b >=? Fin 1)%num); [discriminate |].
      unfold le at 1. rewrite Rleb_true by lra. discriminate.
  - exact Hthrow.
  - intros b m c p H. unfold AbTestingUtils.calculateSampleSize.
    rewrite H. cbn [thrown]. eexists. reflexivity.
  - intros b m c p Hb Hm Hc Hp.
    unfold AbTestingUtils.calculateSampleSize.
    replace (AbTestingUtils.validateInputs _ _ _ _) with (@None string).
    2:{ unfold AbTestingUtils.validateInputs, ge, le. settle_cmp. reflexivity. }
    cbn [thrown]. eexists. reflexivity.
Qed.

End SampleSizeErrors.

(** ** OutcomeAnalyzer *)

Lemma fold_sum_of_bits (bs : list bool) (a : R) :
  fold_left (fun sum val => (sum + val)%num) (of_bits bs) (Fin a)
  = Fin (a + INR (successes bs)).
Proof.
  revert a. induction bs as [| b bs IH]; intros a.
  - simpl. f_equal. lra.
  - cbn [of_bits map fold_left]. fold (of_bits bs).
    destruct b; cbn [of_bit add]; rewrite IH; f_equal; unfold successes;
      cbn [count_occ];
      [ destruct (bool_dec true true); [| contradiction]
      | destruct (bool_dec false true); [discriminate |] ];
      rewrite ?S_INR; lra.
Qed.

Lemma reduce_sum_of_bits (bs : list bool) :
  reduce_sum (of_bits bs) = Fin (INR (successes bs)).
Proof.
  unfold reduce_sum. rewrite fold_sum_of_bits. f_equal. lra.
Qed.

Lemma length_num_of_bits (bs : list bool) :
  length_num (of_bits bs) = Fin (INR (List.length bs)).
Proof. unfold length_num, of_bits. now rewrite length_map. Qed.

Lemma successes_le_length (bs : list bool) :
  (successes bs <= List.length bs)%nat.
Proof. unfold successes. apply count_occ_bound. Qed.

Lemma length_pos (bs : list bool) : bs <> [] -> 0 < INR (List.length bs).
Proof.
  intros H. destruct bs as [| b bs]; [contradiction |].
  apply lt_0_INR. simpl. lia.
Qed.

Lemma mean_bounds (bs : list bool) : bs <> [] -> 0 <= mean bs <= 1.
Proof.
  intros H. pose proof (length_pos bs H) as Hn.
  pose proof (le_INR _ _ (successes_le_length bs)) as Hs.
  pose proof (pos_INR (successes bs)) as H0.
  unfold mean. split.
  - apply Rmult_le_pos; [lra |]. left. now apply Rinv_0_lt_compat.
  - apply (Rmult_le_reg_r (INR (List.length bs))); [lra |].
    unfold Rdiv. rewrite Rmult_assoc, Rinv_l by lra. lra.
Qed.

Lemma pooledRate_bounds (bs1 bs2 : list bool) :
  bs1 <> [] -> bs2 <> [] -> 0 <= pooledRate bs1 bs2 <= 1.
Proof.
  intros H1 H2.
  pose proof (length_pos bs1 H1). pose proof (length_pos bs2 H2).
  pose proof (le_INR _ _ (successes_le_length bs1)).
  pose proof (le_INR _ _ (successes_le_length bs2)).
  pose proof (pos_INR (successes bs1)). pose proof (pos_INR (successes bs2)).
  unfold pooledRate. split.
  - apply Rmult_le_pos; [lra |]. left. apply Rinv_0_lt_compat. lra.
  - apply (Rmult_le_reg_r (INR (List.length bs1) + INR (List.length bs2)));
      [lra |].
    unfold Rdiv. rewrite Rmult_assoc, Rinv_l by lra. lra.
Qed.

Lemma sqrt_Fin (x : R) : 0 <= x -> Math.sqrt (Fin x) = Fin (sqrt x).
Proof. intros H. unfold Math.sqrt. now rewrite Rltb_false. Qed.

Lemma variance_term_nonneg (p n : R) :
  0 <= p <= 1 -> 0 < n -> 0 <= p * (1 - p) / n.
Proof.
  intros Hp Hn. apply Rmult_le_pos; [nra |]. left. now apply Rinv_0_lt_compat.
Qed.

Section Analyzer.

Variable Phi : R -> R.
Variable PhiInv : R -> R.

(** What [analyzeResults] returns on two non-empty [{0,1}]-sequences, field
    by field. *)
Lemma analyzeResults_of_bits (bs1 bs2 : list bool) (confidence : num) :
  bs1 <> [] -> bs2 <> [] ->
  AbTestingUtils.analyzeResults Phi PhiInv (of_bits bs1) (of_bits bs2)
    confidence
  = let pValue := twoSidedP Phi (zScore bs1 bs2) in
    let zAlpha :=
      normal_inv01 PhiInv (Fin 1 - (Fin 1 - confidence) / Fin 2)%num in
    let significant := (pValue <? Fin 1 - confidence)%num in
    Return {|
      AbTestingUtils.controlRate := Fin (mean bs1);
      AbTestingUtils.variantRate := Fin (mean bs2);
      AbTestingUtils.relativeImprovement :=
        (Fin (mean bs2 - mean bs1) / Fin (mean bs1))%num;
      AbTestingUtils.pValue := pValue;
      AbTestingUtils.significant := significant;
      AbTestingUtils.confidenceIntervals :=
        {| control :=
             ((Fin (mean bs1) - zAlpha * Fin (armStandardError bs1))%num,
              (Fin (mean bs1) + zAlpha * Fin (armStandardError bs1))%num);
           variant :=
             ((Fin (mean bs2) - zAlpha * Fin (armStandardError bs2))%num,
              (Fin (mean bs2) + zAlpha * Fin (armStandardError bs2))%num) |};
      AbTestingUtils.conclusion :=
        (if significant then
           if Rltb (mean bs1) (mean bs2)
           then "The variant outperformed the control group significantly."
           else "The control group outperformed the variant significantly."
         else "The test results are inconclusive.")%string
    |}.
Proof.
  intros H1 H2.
  pose proof (length_pos bs1 H1) as Hn1. pose proof (length_pos bs2 H2) as Hn2.
  pose proof (mean_bounds bs1 H1) as Hm1.
  pose proof (mean_bounds bs2 H2) as Hm2.
  pose proof (pooledRate_bounds bs1 bs2 H1 H2) as Hpool.
  unfold AbTestingUtils.analyzeResults.
  rewrite !reduce_sum_of_bits, !length_num_of_bits.
  fin_simpl.
  fold (mean bs1) (mean bs2) (pooledRate bs1 bs2).
  rewrite !sqrt_Fin
    by (apply variance_term_nonneg || apply pooled_variance_nonneg; assumption).
  reflexivity.
Qed.


(** C2.  On two non-empty [{0,1}]-sequences [analyzeResults] returns the
    sample means as [controlRate] and [variantRate]; its [pValue] is
    [2 * (1 - Phi |z|)] for the z-score
    [z = (variantRate - controlRate) / standardError] under the pooled
    proportion (a plain real number as soon as the standard error is not
    zero); [significant] is the test [pValue < 1 - confidence]; and the
    conclusion is the inconclusive one when not significant, the
    variant-outperformed one when significant with
    [variantRate > controlRate], the control-outperformed one otherwise. *)
Theorem analyzeResults_two_proportion_z_test
  (bs1 bs2 : list bool) (confidence : num) :
  bs1 <> [] -> bs2 <> [] ->
  exists r : AbTestingUtils.OutcomeRecord,
    AbTestingUtils.analyzeResults Phi PhiInv (of_bits bs1) (of_bits bs2)
      confidence = Return r
    /\ AbTestingUtils.controlRate r = Fin (mean bs1)
    /\ AbTestingUtils.variantRate r = Fin (mean bs2)
    /\ AbTestingUtils.pValue r = twoSidedP Phi (zScore bs1 bs2)
    /\ (standardError bs1 bs2 <> 0 ->
        AbTestingUtils.pValue r
        = Fin (2 * (1 - Phi (Rabs ((mean bs2 - mean bs1)
                                   / standardError bs1 bs2)))))
    /\ AbTestingUtils.significant r
       = (AbTestingUtils.pValue r <? Fin 1 - confidence)%num
    /\ AbTestingUtils.conclusion r
       = (if AbTestingUtils.significant r then
            if Rltb (mean bs1) (mean bs2)
            then "The variant outperformed the control group significantly."
            else "The control group outperformed the variant significantly."
          else "The test results are inconclusive.")%string.
Proof.
  intros H1 H2. eexists. split; [apply analyzeResults_of_bits; assumption |].
  cbn [AbTestingUtils.controlRate AbTestingUtils.variantRate
       AbTestingUtils.pValue AbTestingUtils.significant
       AbTestingUtils.conclusion].
  repeat split.
  intros Hse. unfold twoSidedP, zScore. now fin_simpl.
Qed.

End Analyzer.

Lemma analyzeResults_two_proportion_z_test_witness :
  exists r : AbTestingUtils.OutcomeRecord,
    AbTestingUtils.analyzeResults linear_cdf linear_inv
      (of_bits [true; false]) (of_bits [true; true]) (Fin (95/100)) = Return r
    /\ AbTestingUtils.controlRate r = Fin (mean [true; false])
    /\ AbTestingUtils.variantRate r = Fin (mean [true; true]).
Proof.
  destruct (analyzeResults_two_proportion_z_test linear_cdf linear_inv
              [true; false] [true; true] (Fin (95/100))
              ltac:(discriminate) ltac:(discriminate))
    as [r [Hret [Hc [Hv _]]]].
  exists r. repeat split; assumption.
Defined.

(** *** Degenerate inputs: [NaN] is propagated, nothing is raised *)

Lemma sub_NaN_r (a : num) : (a - NaN)%num = NaN.
Proof. destruct a; reflexivity. Qed.

Lemma sub_NaN_l (a : num) : (NaN - a)%num = NaN.
Proof. destruct a; reflexivity. Qed.

Lemma div_NaN_l (a : num) : (NaN / a)%num = NaN.
Proof. destruct a; reflexivity. Qed.

Lemma div_NaN_r (a : num) : (a / NaN)%num = NaN.
Proof. destruct a; reflexivity. Qed.

Lemma div_0_0 : (Fin 0 / Fin 0)%num = NaN.
Proof. unfold div. now rewrite !Reqb_true. Qed.

Lemma twoSidedP_NaN (Phi : R -> R) : twoSidedP Phi NaN = NaN.
Proof. reflexivity. Qed.

(** The mean of the empty array is [0 / 0]. *)
Lemma empty_rate : (reduce_sum [] / length_num [])%num = NaN.
Proof. exact div_0_0. Qed.

Lemma zero_successes (bs : list bool) :
  bs <> [] -> INR (successes bs) = 0 -> mean bs = 0.
Proof. intros _ H. unfold mean. rewrite H. unfold Rdiv. ring. Qed.

Lemma all_successes (bs : list bool) :
  bs <> [] -> INR (successes bs) = INR (List.length bs) -> mean bs = 1.
Proof.
  intros Hne H. pose proof (length_pos bs Hne). unfold mean. rewrite H.
  now apply Rdiv_diag; lra.
Qed.

(** With a pooled proportion of [0] or [1] both arms have the same rate and
    the standard error is zero: the z-score is [0 / 0]. *)
Lemma zScore_degenerate (bs1 bs2 : list bool) :
  bs1 <> [] -> bs2 <> [] ->
  pooledRate bs1 bs2 = 0 \/ pooledRate bs1 bs2 = 1 ->
  zScore bs1 bs2 = NaN.
Proof.
  intros H1 H2 Hpool.
  pose proof (length_pos bs1 H1) as Hn1. pose proof (length_pos bs2 H2) as Hn2.
  pose proof (le_INR _ _ (successes_le_length bs1)) as Hs1.
  pose proof (le_INR _ _ (successes_le_length bs2)) as Hs2.
  pose proof (pos_INR (successes bs1)) as Hp1.
  pose proof (pos_INR (successes bs2)) as Hp2.
  assert (Hse : standardError bs1 bs2 = 0).
  { unfold standardError.
    destruct Hpool as [-> | ->];
      [ replace (0 * (1 - 0) * _) with 0 by ring
      | replace (1 * (1 - 1) * _) with 0 by ring ];
      apply sqrt_0. }
  assert (Hsum : pooledRate bs1 bs2
                 * (INR (List.length bs1) + INR (List.length bs2))
                 = INR (successes bs1) + INR (successes bs2)).
  { unfold pooledRate. field. lra. }
  assert (Hdiff : mean bs2 - mean bs1 = 0).
  { destruct Hpool as [Hp | Hp]; rewrite Hp in Hsum.
    - rewrite (zero_successes bs1), (zero_successes bs2) by (assumption || lra).
      ring.
    - rewrite (all_successes bs1), (all_successes bs2) by (assumption || lra).
      ring. }
  unfold zScore. rewrite Hse, Hdiff. exact div_0_0.
Qed.

(** C5 fails as stated: on two all-zero sequences the p-value returned is
    [NaN], not [1]. *)
Lemma analyzeResults_all_zeros_pValue_NaN :
  exists r : AbTestingUtils.OutcomeRecord,
    AbTestingUtils.analyzeResults linear_cdf linear_inv
      [Fin 0; Fin 0] [Fin 0; Fin 0] (Fin (95/100)) = Return r
    /\ AbTestingUtils.pValue r = NaN
    /\ pooledRate [false; false] [false; false] = 0.
Proof.
  assert (Hpool : pooledRate [false; false] [false; false] = 0).
  { unfold pooledRate, successes. simpl. unfold Rdiv. ring. }
  eexists. split; [| split; [| exact Hpool]].
  - apply (analyzeResults_of_bits linear_cdf linear_inv
             [false; false] [false; false]); discriminate.
  - cbn [AbTestingUtils.pValue].
    rewrite zScore_degenerate by (discriminate || (left; exact Hpool)).
    reflexivity.
Qed.

(** C6 fails as stated: with an empty control sequence nothing is raised, a
    record full of [NaN] is returned. *)
Lemma analyzeResults_empty_control_returns :
  exists r : AbTestingUtils.OutcomeRecord,
    AbTestingUtils.analyzeResults linear_cdf linear_inv
      [] [Fin 1; Fin 0] (Fin (95/100)) = Return r
    /\ AbTestingUtils.controlRate r = NaN
    /\ AbTestingUtils.relativeImprovement r = NaN
    /\ AbTestingUtils.pValue r = NaN.
Proof.
  eexists. split; [reflexivity |].
  cbn [AbTestingUtils.controlRate AbTestingUtils.relativeImprovement
       AbTestingUtils.pValue].
  rewrite !empty_rate, !sub_NaN_r, !div_NaN_l. repeat split; reflexivity.
Qed.

Section Degenerate.

Variable Phi : R -> R.
Variable PhiInv : R -> R.

(** C5, amended.  On two non-empty [{0,1}]-sequences whose pooled proportion
    is [0] or [1], [analyzeResults] returns [significant = false] and the
    inconclusive conclusion; its [pValue] is [NaN]: the zero standard error
    is not special-cased. *)
Theorem analyzeResults_zero_standard_error
  (bs1 bs2 : list bool) (confidence : num) :
  bs1 <> [] -> bs2 <> [] ->
  pooledRate bs1 bs2 = 0 \/ pooledRate bs1 bs2 = 1 ->
  exists r : AbTestingUtils.OutcomeRecord,
    AbTestingUtils.analyzeResults Phi PhiInv (of_bits bs1) (of_bits bs2)
      confidence = Return r
    /\ AbTestingUtils.pValue r = NaN
    /\ AbTestingUtils.significant r = false
    /\ AbTestingUtils.conclusion r
       = "The test results are inconclusive."%string.
Proof.
  intros H1 H2 Hpool. eexists.
  split; [apply analyzeResults_of_bits; assumption |].
  cbn [AbTestingUtils.pValue AbTestingUtils.significant
       AbTestingUtils.conclusion].
  rewrite zScore_degenerate by assumption.
  repeat split; reflexivity.
Qed.

(** C6, amended.  [analyzeResults] raises nothing when a sequence is empty:
    it returns a record whose [pValue] and [relativeImprovement] are [NaN],
    with [significant = false] and the inconclusive conclusion; the rate of
    an empty arm is [NaN]. *)
Theorem analyzeResults_empty_sequence
  (controlData variantData : list num) (confidence : num) :
  controlData = [] \/ variantData = [] ->
  exists r : AbTestingUtils.OutcomeRecord,
    AbTestingUtils.analyzeResults Phi PhiInv controlData variantData
      confidence = Return r
    /\ AbTestingUtils.pValue r = NaN
    /\ AbTestingUtils.relativeImprovement r = NaN
    /\ AbTestingUtils.significant r = false
    /\ AbTestingUtils.conclusion r
       = "The test results are inconclusive."%string
    /\ (controlData = [] -> AbTestingUtils.controlRate r = NaN)
    /\ (variantData = [] -> AbTestingUtils.variantRate r = NaN).
Proof.
  intros Hempty. eexists. split; [reflexivity |].
  cbn [AbTestingUtils.pValue AbTestingUtils.relativeImprovement
       AbTestingUtils.significant AbTestingUtils.conclusion
       AbTestingUtils.controlRate AbTestingUtils.variantRate].
  assert (Hdiff :
    ((reduce_sum variantData / length_num variantData
      - reduce_sum controlData / length_num controlData)%num) = NaN).
  { destruct Hempty as [-> | ->]; rewrite empty_rate.
    - apply sub_NaN_r.
    - apply sub_NaN_l. }
  rewrite Hdiff, !div_NaN_l.
  repeat split; try reflexivity; intros ->; exact empty_rate.
Qed.

End Degenerate.

Lemma analyzeResults_zero_standard_error_witness :
  exists r : AbTestingUtils.OutcomeRecord,
    AbTestingUtils.analyzeResults linear_cdf linear_inv
      (of_bits [true; true]) (of_bits [true]) (Fin (95/100)) = Return r
    /\ AbTestingUtils.pValue r = NaN
    /\ AbTestingUtils.significant r = false.
Proof.
  assert (Hpool : pooledRate [true; true] [true] = 1).
  { unfold pooledRate, successes. simpl. field. }
  destruct (analyzeResults_zero_standard_error linear_cdf linear_inv
              [true; true] [true] (Fin (95/100))
              ltac:(discriminate) ltac:(discriminate) (or_intror Hpool))
    as [r [Hret [Hp [Hs _]]]].
  exists r. repeat split; assumption.
Defined.

Lemma analyzeResults_empty_sequence_witness :
  exists r : AbTestingUtils.OutcomeRecord,
    AbTestingUtils.analyzeResults linear_cdf linear_inv
      [Fin 1; Fin 0] [] (Fin (95/100)) = Return r
    /\ AbTestingUtils.pValue r = NaN.
Proof.
  destruct (analyzeResults_empty_sequence linear_cdf linear_inv
              [Fin 1; Fin 0] [] (Fin (95/100)) (or_intror eq_refl))
    as [r [Hret [Hp _]]].
  exists r. split; assumption.
Defined.

(** *** Confidence intervals *)

Section Intervals.

Variable Phi : R -> R.
Variable PhiInv : R -> R.

(** Quantiles above the median are positive. *)
Hypothesis PhiInv_pos : forall p : R, 1/2 < p < 1 -> 0 < PhiInv p.

(** X31.  On two non-empty [{0,1}]-sequences the interval of each arm is the
    pair [rate - z * se, rate + z * se] with
    [z = PhiInv (1 - (1 - confidence) / 2)] and the unpooled
    [se = sqrt (rate * (1 - rate) / n)]; for a confidence level in (0,1)
    the pair brackets the rate. *)
Theorem analyzeResults_wald_intervals
  (bs1 bs2 : list bool) (confidence : R) :
  bs1 <> [] -> bs2 <> [] ->
  let z := PhiInv (1 - (1 - confidence) / 2) in
  let low bs := mean bs - z * armStandardError bs in
  let high bs := mean bs + z * armStandardError bs in
  exists r : AbTestingUtils.OutcomeRecord,
    AbTestingUtils.analyzeResults Phi PhiInv (of_bits bs1) (of_bits bs2)
      (Fin confidence) = Return r
    /\ control (AbTestingUtils.confidenceIntervals r)
       = (Fin (low bs1), Fin (high bs1))
    /\ variant (AbTestingUtils.confidenceIntervals r)
       = (Fin (low bs2), Fin (high bs2))
    /\ (0 < confidence < 1 ->
        low bs1 <= mean bs1 <= high bs1 /\ low bs2 <= mean bs2 <= high bs2).
Proof.
  intros H1 H2 z low high. eexists.
  split; [apply analyzeResults_of_bits; assumption |].
  cbn [AbTestingUtils.confidenceIntervals control variant].
  fin_simpl. split; [reflexivity |]. split; [reflexivity |].
  intros Hc.
  assert (Hz : 0 < z) by (apply PhiInv_pos; lra).
  pose proof (sqrt_pos (mean bs1 * (1 - mean bs1) / INR (List.length bs1)))
    as Hse1.
  pose proof (sqrt_pos (mean bs2 * (1 - mean bs2) / INR (List.length bs2)))
    as Hse2.
  fold (armStandardError bs1) in Hse1. fold (armStandardError bs2) in Hse2.
  subst low high. cbv beta. nra.
Qed.

End Intervals.

Lemma analyzeResults_wald_intervals_witness :
  exists r : AbTestingUtils.OutcomeRecord,
    AbTestingUtils.analyzeResults linear_cdf linear_inv
      (of_bits [true; false]) (of_bits [true; true]) (Fin (95/100)) = Return r
    /\ snd (variant (AbTestingUtils.confidenceIntervals r))
       = Fin (mean [true; true]
              + linear_inv (1 - (1 - 95/100) / 2)
                * armStandardError [true; true]).
Proof.
  destruct (analyzeResults_wald_intervals linear_cdf linear_inv
              ltac:(unfold linear_inv; intros; lra)
              [true; false] [true; true] (95/100)
              ltac:(discriminate) ltac:(discriminate))
    as [r [Hret [_ [Hv _]]]].
  exists r. split; [exact Hret |]. rewrite Hv. reflexivity.
Defined.

(** *** Exchanging the arms *)

Lemma add_comm (a b : num) : (a + b)%num = (b + a)%num.
Proof. destruct a, b; try reflexivity. cbn. f_equal. ring. Qed.

Lemma sub_swap (a b : num) : (a - b)%num = neg (b - a)%num.
Proof. destruct a, b; try reflexivity. cbn. f_equal. ring. Qed.

Lemma inf_of_sign_opp (x : R) :
  x <> 0 -> inf_of (Rltb 0 (- x)) = neg (inf_of (Rltb 0 x)).
Proof.
  intros H. destruct (Rlt_dec 0 x).
  - rewrite (Rltb_true 0 x), (Rltb_false 0 (- x)) by lra. reflexivity.
  - rewrite (Rltb_false 0 x), (Rltb_true 0 (- x)) by lra. reflexivity.
Qed.

Lemma div_neg_l (a b : num) : (neg a / b)%num = neg (a / b)%num.
Proof.
  destruct a as [x | | |], b as [y | | |]; try reflexivity; cbn.
  - destruct (Req_dec_T y 0) as [Hy | Hy].
    + rewrite (Reqb_true y 0) by assumption.
      destruct (Req_dec_T x 0) as [Hx | Hx].
      * rewrite (Reqb_true x 0), (Reqb_true (- x) 0) by lra. reflexivity.
      * rewrite (Reqb_false x 0), (Reqb_false (- x) 0) by lra.
        now apply inf_of_sign_opp.
    + rewrite (Reqb_false y 0) by assumption. cbn. f_equal. now field.
  - f_equal. ring.
  - f_equal. ring.
  - unfold inf_over. destruct (Rltb y 0); reflexivity.
  - unfold inf_over. destruct (Rltb y 0); reflexivity.
Qed.

Lemma abs_neg (a : num) : Math.abs (neg a) = Math.abs a.
Proof. destruct a; try reflexivity. cbn. f_equal. apply Rabs_Ropp. Qed.

Section Symmetry.

Variable Phi : R -> R.
Variable PhiInv : R -> R.

(** C10.  Exchanging the two arguments of [analyzeResults] changes neither
    [pValue] nor [significant]; this holds for all arrays, empty or not. *)
Theorem analyzeResults_swap_arms
  (controlData variantData : list num) (confidence : num) :
  exists r r' : AbTestingUtils.OutcomeRecord,
    AbTestingUtils.analyzeResults Phi PhiInv controlData variantData
      confidence = Return r
    /\ AbTestingUtils.analyzeResults Phi PhiInv variantData controlData
         confidence = Return r'
    /\ AbTestingUtils.pValue r' = AbTestingUtils.pValue r
    /\ AbTestingUtils.significant r' = AbTestingUtils.significant r.
Proof.
  do 2 eexists. split; [reflexivity |]. split; [reflexivity |].
  cbn [AbTestingUtils.pValue AbTestingUtils.significant].
  rewrite (add_comm (reduce_sum variantData) (reduce_sum controlData)).
  rewrite (add_comm (length_num variantData) (length_num controlData)).
  rewrite (add_comm (Fin 1 / length_num variantData)%num).
  rewrite (sub_swap (reduce_sum controlData / length_num controlData)%num).
  rewrite div_neg_l, abs_neg. split; reflexivity.
Qed.

End Symmetry.

(** ** SequentialMonitor *)

Lemma slice0_nonneg (xs : list num) (e : Z) :
  (0 <= e)%Z -> slice0 xs e = firstn (Z.to_nat e) xs.
Proof.
  intros H. unfold slice0.
  destruct (Z.ltb_spec e 0); [lia | reflexivity].
Qed.

Lemma multiples_snoc (k : Z) (n : nat) :
  multiples k (S n) = multiples k n ++ [(Z.of_nat (S n) * k)%Z].
Proof. unfold multiples. now rewrite seq_S, map_app. Qed.

Lemma multiples_lower_bound (k : Z) (n : nat) (b : Z) :
  (0 < k)%Z -> (b <= k)%Z -> Forall (fun s => (b <= s)%Z) (multiples k n).
Proof.
  intros Hk Hb. unfold multiples. apply Forall_forall. intros s Hin.
  apply in_map_iff in Hin. destruct Hin as [i [<- _]]. nia.
Qed.

Lemma multiples_increasing (k : Z) (n : nat) :
  (0 < k)%Z -> StronglySorted Z.lt (multiples k n).
Proof.
  intros Hk. unfold multiples.
  generalize 0%nat as start. induction n as [| n IH]; intros start.
  - constructor.
  - cbn [seq map]. constructor; [apply IH |].
    apply Forall_forall. intros s Hin. apply in_map_iff in Hin.
    destruct Hin as [i [<- Hi]]. apply in_seq in Hi. nia.
Qed.

Section Sequential.

Variable Phi : R -> R.
Variable PhiInv : R -> R.

(** The two copies of [sequentialAnalysis] compute the same thing: the
    analyses they call differ in the confidence intervals only, which the
    checkpoints do not record. *)
Lemma sequentialAnalysis_loop_copies (fuel : nat)
  (controlData variantData : list num) (minSampleSize : Z) (confidence : num)
  (currentSize size : Z) (results : list Checkpoint.t) :
  Statistics.sequentialAnalysis_loop Phi PhiInv fuel controlData variantData
    minSampleSize confidence currentSize size results
  = AbTestingUtils.sequentialAnalysis_loop Phi PhiInv fuel controlData
      variantData minSampleSize confidence currentSize size results.
Proof.
  revert size results. induction fuel as [| fuel IH]; intros size results.
  - reflexivity.
  - cbn [Statistics.sequentialAnalysis_loop
         AbTestingUtils.sequentialAnalysis_loop].
    destruct (size <=? currentSize)%Z; [| reflexivity].
    unfold Statistics.analyzeResults, AbTestingUtils.analyzeResults.
    cbv zeta. cbn [Statistics.pValue Statistics.relativeImprovement
                   AbTestingUtils.pValue AbTestingUtils.relativeImprovement].
    apply IH.
Qed.

Lemma sequentialAnalysis_copies (fuel : nat)
  (controlData variantData : list num) (minSampleSize : Z) (confidence : num) :
  Statistics.sequentialAnalysis Phi PhiInv fuel controlData variantData
    minSampleSize confidence
  = AbTestingUtils.sequentialAnalysis Phi PhiInv fuel controlData variantData
      minSampleSize confidence.
Proof. apply sequentialAnalysis_loop_copies. Qed.

(** One turn of the loop whose test succeeds, for a counter that is not
    negative. *)
Lemma sequentialAnalysis_loop_step (fuel : nat)
  (controlData variantData : list num) (minSampleSize : Z) (confidence : num)
  (currentSize size : Z) (results : list Checkpoint.t) :
  (size <= currentSize)%Z -> (0 <= size)%Z ->
  exists cp : Checkpoint.t,
    is_checkpoint Phi PhiInv controlData variantData confidence size cp
    /\ AbTestingUtils.sequentialAnalysis_loop Phi PhiInv (S fuel)
         controlData variantData minSampleSize confidence currentSize size
         results
       = AbTestingUtils.sequentialAnalysis_loop Phi PhiInv fuel
           controlData variantData minSampleSize confidence currentSize
           (size + minSampleSize)%Z (results ++ [cp]).
Proof.
  intros Hle Hpos.
  cbn [AbTestingUtils.sequentialAnalysis_loop].
  destruct (Z.leb_spec size currentSize); [| lia].
  rewrite !slice0_nonneg by assumption.
  eexists. split; [| reflexivity].
  split; [reflexivity |]. eexists. split; [reflexivity |].
  split; reflexivity.
Qed.

(** The loop from its [j+1]-th turn on, with the [j] checkpoints found so
    far: when at most [rest] turns remain, [rest + 1] evaluations of the
    test are enough. *)
Lemma sequentialAnalysis_loop_runs
  (controlData variantData : list num) (k : Z) (confidence : num)
  (currentSize : Z) (rest : nat) :
  (0 < k)%Z -> (0 <= currentSize)%Z ->
  forall (j fuel : nat) (results : list Checkpoint.t),
    (j + rest = Z.to_nat (currentSize / k))%nat ->
    (rest < fuel)%nat ->
    Forall2 (is_checkpoint Phi PhiInv controlData variantData confidence)
      (multiples k j) results ->
    exists cps : list Checkpoint.t,
      AbTestingUtils.sequentialAnalysis_loop Phi PhiInv fuel controlData
        variantData k confidence currentSize (Z.of_nat (S j) * k)%Z results
      = Some (Return cps)
      /\ Forall2 (is_checkpoint Phi PhiInv controlData variantData confidence)
           (multiples k (Z.to_nat (currentSize / k))) cps.
Proof.
  intros Hk Hcur.
  assert (Hq : (0 <= currentSize / k)%Z) by (apply Z.div_pos; lia).
  pose proof (Z.mul_div_le currentSize k Hk) as Hlow.
  pose proof (Z.mul_succ_div_gt currentSize k Hk) as Hhigh.
  induction rest as [| rest IH]; intros j fuel results Hj Hfuel Hinv.
  - destruct fuel as [| fuel]; [lia |].
    exists results. rewrite Nat.add_0_r in Hj. subst j. split; [| exact Hinv].
    cbn [AbTestingUtils.sequentialAnalysis_loop].
    destruct (Z.leb_spec (Z.of_nat (S (Z.to_nat (currentSize / k))) * k)
                currentSize); [nia | reflexivity].
  - destruct fuel as [| fuel]; [lia |].
    destruct (sequentialAnalysis_loop_step fuel controlData variantData k
                confidence currentSize (Z.of_nat (S j) * k)%Z results)
      as [cp [Hcp Hstep]]; [nia | nia |].
    rewrite Hstep.
    replace (Z.of_nat (S j) * k + k)%Z with (Z.of_nat (S (S j)) * k)%Z by lia.
    apply IH; [lia | lia |].
    rewrite multiples_snoc. apply Forall2_app; [exact Hinv |].
    constructor; [exact Hcp | constructor].
Qed.

(** C3.  For two arrays of the same length [N] and a checkpoint size
    [k > 0], [sequentialAnalysis] returns, as soon as it may evaluate its
    loop test [N / k + 1] times, exactly [floor (N / k)] checkpoints; their
    [sampleSize] values are [k, 2k, 3k, ...], strictly increasing, and each
    carries the [pValue] and [relativeImprovement] of [analyzeResults] on
    the prefixes of that length.  Both copies of the function agree. *)
Theorem sequentialAnalysis_checkpoints
  (controlData variantData : list num) (k : Z) (confidence : num)
  (N fuel : nat) :
  List.length controlData = N -> List.length variantData = N ->
  (0 < k)%Z -> (Z.to_nat (Z.of_nat N / k) < fuel)%nat ->
  exists cps : list Checkpoint.t,
    AbTestingUtils.sequentialAnalysis Phi PhiInv fuel controlData variantData
      k confidence = Some (Return cps)
    /\ Statistics.sequentialAnalysis Phi PhiInv fuel controlData variantData
         k confidence = Some (Return cps)
    /\ Z.of_nat (List.length cps) = (Z.of_nat N / k)%Z
    /\ map Checkpoint.sampleSize cps = multiples k (List.length cps)
    /\ StronglySorted Z.lt (map Checkpoint.sampleSize cps)
    /\ Forall2 (is_checkpoint Phi PhiInv controlData variantData confidence)
         (multiples k (List.length cps)) cps.
Proof.
  intros Hc Hv Hk Hfuel.
  assert (Hq : (0 <= Z.of_nat N / k)%Z) by (apply Z.div_pos; lia).
  destruct (sequentialAnalysis_loop_runs controlData variantData k confidence
              (Z.of_nat N) (Z.to_nat (Z.of_nat N / k)) Hk ltac:(lia)
              0%nat fuel [] ltac:(lia) Hfuel ltac:(constructor))
    as [cps [Hrun Hall]].
  assert (Hlen : List.length cps = Z.to_nat (Z.of_nat N / k)).
  { apply Forall2_length in Hall. unfold multiples in Hall.
    now rewrite length_map, length_seq in Hall. }
  assert (Hsizes :
    map Checkpoint.sampleSize cps = multiples k (List.length cps)).
  { rewrite Hlen. clear - Hall.
    induction Hall as [| s cp ss cps' [Hs _] _ IH]; [reflexivity |].
    cbn [map]. now rewrite Hs, IH. }
  exists cps.
  assert (Hmain : AbTestingUtils.sequentialAnalysis Phi PhiInv fuel
                    controlData variantData k confidence = Some (Return cps)).
  { unfold AbTestingUtils.sequentialAnalysis, Math.min.
    rewrite Hc, Hv, Nat.min_id. rewrite <- Hrun. f_equal. lia. }
  split; [exact Hmain |].
  split; [rewrite sequentialAnalysis_copies; exact Hmain |].
  split; [lia |]. split; [exact Hsizes |].
  split; [rewrite Hsizes; now apply multiples_increasing |].
  rewrite Hlen. exact Hall.
Qed.

(** With a step that is not positive the counter never passes the bound. *)
Lemma sequentialAnalysis_loop_never_returns (fuel : nat)
  (controlData variantData : list num) (minSampleSize : Z) (confidence : num)
  (currentSize : Z) :
  (minSampleSize <= 0)%Z ->
  forall (size : Z) (results : list Checkpoint.t),
    (size <= currentSize)%Z ->
    AbTestingUtils.sequentialAnalysis_loop Phi PhiInv fuel controlData
      variantData minSampleSize confidence currentSize size results = None.
Proof.
  intros Hk. induction fuel as [| fuel IH]; intros size results Hsize.
  - reflexivity.
  - cbn [AbTestingUtils.sequentialAnalysis_loop].
    destruct (Z.leb_spec size currentSize); [| lia].
    unfold AbTestingUtils.analyzeResults. cbv zeta. apply IH. lia.
Qed.

(** C7, as the code has it.  With [checkpointSize <= 0] no number of turns
    ends the loop of [sequentialAnalysis]: there is no guard, nothing is
    raised and nothing is returned.  Both copies behave so. *)
Theorem sequentialAnalysis_nonpositive_step_diverges
  (controlData variantData : list num) (minSampleSize : Z) (confidence : num) :
  (minSampleSize <= 0)%Z ->
  forall fuel : nat,
    AbTestingUtils.sequentialAnalysis Phi PhiInv fuel controlData variantData
      minSampleSize confidence = None
    /\ Statistics.sequentialAnalysis Phi PhiInv fuel controlData variantData
         minSampleSize confidence = None.
Proof.
  intros Hk fuel.
  assert (Hmain : AbTestingUtils.sequentialAnalysis Phi PhiInv fuel
                    controlData variantData minSampleSize confidence = None).
  { unfold AbTestingUtils.sequentialAnalysis.
    apply sequentialAnalysis_loop_never_returns; lia. }
  split; [exact Hmain |]. rewrite sequentialAnalysis_copies. exact Hmain.
Qed.

End Sequential.

Lemma sequentialAnalysis_checkpoints_witness :
  exists cps : list Checkpoint.t,
    AbTestingUtils.sequentialAnalysis linear_cdf linear_inv 3
      [Fin 1; Fin 0; Fin 1; Fin 0; Fin 1] [Fin 1; Fin 1; Fin 0; Fin 1; Fin 1]
      2 (Fin (95/100)) = Some (Return cps)
    /\ map Checkpoint.sampleSize cps = [2; 4]%Z.
Proof.
  destruct (sequentialAnalysis_checkpoints linear_cdf linear_inv
              [Fin 1; Fin 0; Fin 1; Fin 0; Fin 1]
              [Fin 1; Fin 1; Fin 0; Fin 1; Fin 1]
              2 (Fin (95/100)) 5 3 eq_refl eq_refl eq_refl
              ltac:(vm_compute; lia))
    as [cps [Hrun [_ [Hlen [Hsizes _]]]]].
  exists cps. split; [exact Hrun |].
  assert (Hn : List.length cps = 2%nat)
    by (change (Z.of_nat 5 / 2)%Z with 2%Z in Hlen; lia).
  rewrite Hsizes, Hn. reflexivity.
Defined.

(** The caller's case: a sample size of 7 gives the checkpoint size
    [Math.floor(7 / 10) = 0]. *)
Lemma sequentialAnalysis_nonpositive_step_diverges_witness :
  AbTestingUtils.sequentialAnalysis linear_cdf linear_inv 1000
    [Fin 0; Fin 1; Fin 0; Fin 0; Fin 1; Fin 0; Fin 0]
    [Fin 1; Fin 0; Fin 0; Fin 1; Fin 0; Fin 1; Fin 0]
    0 (Fin (95/100)) = None.
Proof.
  exact (proj1 (sequentialAnalysis_nonpositive_step_diverges
                  linear_cdf linear_inv
                  [Fin 0; Fin 1; Fin 0; Fin 0; Fin 1; Fin 0; Fin 0]
                  [Fin 1; Fin 0; Fin 0; Fin 1; Fin 0; Fin 1; Fin 0]
                  0 (Fin (95/100)) ltac:(lia) 1000%nat)).
Defined.

(** ** The copy in [Statistics], where it departs from [AbTestingUtils] *)

(** Its validator takes the bounds as included: a confidence of [1.0] and a
    power of [0.8] both pass. *)
Remark Statistics_validateInputs_inclusive :
  Statistics.validateInputs
    (Fin (1/10)) (Fin (5/100)) (Fin 1) (Fin (8/10)) = None.
Proof.
  unfold Statistics.validateInputs, gt, lt. settle_cmp. reflexivity.
Qed.

(** Its sample-size calculator validates nothing: [mde = 0] gives
    [+Infinity]. *)
Remark Statistics_calculateSampleSize_zero_mde :
  Statistics.calculateSampleSize linear_inv
    (Fin (1/10)) (Fin 0) (Fin (95/100)) (Fin (9/10)) = Return PInf.
Proof.
  unfold Statistics.calculateSampleSize, linear_inv. fin_simpl.
  unfold div. rewrite Reqb_true by lra. rewrite Reqb_false by lra.
  rewrite Rltb_true by lra. reflexivity.
Qed.

(** X30.  Its analyzer stores one number per arm, the quantile
    [rate + PhiInv confidence * se] of a normal law centred at the rate,
    where [AbTestingUtils] stores the Wald pair. *)
Remark Statistics_analyzeResults_one_sided (Phi PhiInv : R -> R)
  (bs1 bs2 : list bool) (confidence : R) :
  bs1 <> [] -> bs2 <> [] ->
  exists r : Statistics.OutcomeRecord,
    Statistics.analyzeResults Phi PhiInv (of_bits bs1) (of_bits bs2)
      (Fin confidence) = Return r
    /\ control (Statistics.confidenceIntervals r)
       = Fin (armStandardError bs1 * PhiInv confidence + mean bs1)
    /\ variant (Statistics.confidenceIntervals r)
       = Fin (armStandardError bs2 * PhiInv confidence + mean bs2).
Proof.
  intros H1 H2.
  pose proof (length_pos bs1 H1) as Hn1. pose proof (length_pos bs2 H2) as Hn2.
  pose proof (mean_bounds bs1 H1) as Hm1.
  pose proof (mean_bounds bs2 H2) as Hm2.
  eexists. split; [reflexivity |].
  cbn [Statistics.confidenceIntervals control variant].
  rewrite !reduce_sum_of_bits, !length_num_of_bits. unfold normal_inv.
  fin_simpl. fold (mean bs1) (mean bs2). fin_simpl.
  rewrite !sqrt_Fin by (apply variance_term_nonneg; assumption).
  split; reflexivity.
Qed.

(** C9.  The copy of [analyzeResults] in [part_000] does not return Wald
    intervals.  For the control arm [[1, 0]] and the variant arm [[1, 1]] at
    confidence [0.95] it stores for the control arm the single number
    [1/2 + PhiInv 0.95 * sqrt (1/8)], the 0.95-quantile of a normal law
    centred at the rate, where [analyzeResults] of [abTestingUtils.ts]
    stores the pair [1/2 -/+ PhiInv 0.975 * sqrt (1/8)]. *)
Theorem Statistics_analyzeResults_not_wald (Phi PhiInv : R -> R) :
  exists (r : Statistics.OutcomeRecord) (r' : AbTestingUtils.OutcomeRecord),
    Statistics.analyzeResults Phi PhiInv
      (of_bits [true; false]) (of_bits [true; true]) (Fin (95/100)) = Return r
    /\ AbTestingUtils.analyzeResults Phi PhiInv
         (of_bits [true; false]) (of_bits [true; true]) (Fin (95/100))
       = Return r'
    /\ control (Statistics.confidenceIntervals r)
       = Fin (1/2 + PhiInv (95/100) * sqrt (1/8))
    /\ control (AbTestingUtils.confidenceIntervals r')
       = (Fin (1/2 - PhiInv (975/1000) * sqrt (1/8)),
          Fin (1/2 + PhiInv (975/1000) * sqrt (1/8))).
Proof.
  assert (Hmean : mean [true; false] = 1/2).
  { unfold mean, successes. cbn. lra. }
  assert (Hse : armStandardError [true; false] = sqrt (1/8)).
  { unfold armStandardError. rewrite Hmean. cbn. f_equal. lra. }
  pose proof (length_pos [true; false] ltac:(discriminate)) as Hn.
  pose proof (mean_bounds [true; false] ltac:(discriminate)) as Hm.
  do 2 eexists.
  split; [reflexivity |].
  split; [apply analyzeResults_of_bits; discriminate |].
  cbn [Statistics.confidenceIntervals AbTestingUtils.confidenceIntervals
       control variant].
  rewrite !reduce_sum_of_bits, !length_num_of_bits. unfold normal_inv.
  fin_simpl. fold (mean [true; false]). fin_simpl.
  rewrite !sqrt_Fin by (apply variance_term_nonneg; assumption).
  fin_simpl. fold (armStandardError [true; false]).
  rewrite Hse, Hmean.
  split; [f_equal; ring |].
  replace (1 - (1 - 95/100) / 2) with (975/1000) by lra. reflexivity.
Qed.

(** ** Further properties of the validators *)

Lemma strict_test_passes (lo hi : R) (x : num) :
  (x <=? Fin lo)%num || (x >=? Fin hi)%num = false <-> nan_or_inside lo hi x.
Proof.
  unfold nan_or_inside, ge, le. destruct x as [r | | |]; cbn.
  - rewrite !Rleb_negb_Rltb, <- negb_andb, negb_false_iff, andb_true_iff.
    split.
    + intros [H1 H2]. right. exists r. split; [reflexivity |].
      unfold Rltb in H1, H2.
      destruct (Rlt_dec lo r), (Rlt_dec r hi); try discriminate. lra.
    + intros [H | [r' [E [H1 H2]]]]; [discriminate |]. inversion E; subst r'.
      now rewrite !Rltb_true.
  - split; [discriminate |]. intros [H | [r [H _]]]; discriminate.
  - split; [discriminate |]. intros [H | [r [H _]]]; discriminate.
  - split; [intros _; now left | reflexivity].
Qed.

Lemma inclusive_test_passes (lo hi : R) (x : num) :
  (x <? Fin lo)%num || (x >? Fin hi)%num = false <-> nan_or_within lo hi x.
Proof.
  unfold nan_or_within, gt, lt. destruct x as [r | | |]; cbn.
  - rewrite orb_false_iff. split.
    + intros [H1 H2]. right. exists r. split; [reflexivity |].
      unfold Rltb in H1, H2.
      destruct (Rlt_dec r lo), (Rlt_dec hi r); try discriminate. lra.
    + intros [H | [r' [E [H1 H2]]]]; [discriminate |]. inversion E; subst r'.
      now rewrite !Rltb_false.
  - split; [discriminate |]. intros [H | [r [H _]]]; discriminate.
  - split; [discriminate |]. intros [H | [r [H _]]]; discriminate.
  - split; [intros _; now left | reflexivity].
Qed.

Lemma validateInputs_None_iff (baselineRate mde confidence power : num) :
  AbTestingUtils.validateInputs baselineRate mde confidence power = None
  <-> nan_or_inside 0 1 baselineRate /\ nan_or_inside 0 1 mde
      /\ nan_or_inside (8/10) 1 confidence /\ nan_or_inside (8/10) 1 power.
Proof.
  rewrite <- !strict_test_passes. unfold AbTestingUtils.validateInputs.
  destruct ((baselineRate <=? Fin 0)%num || (baselineRate >=? Fin 1)%num);
    [split; [discriminate | intros [H _]; discriminate] |].
  destruct ((mde <=? Fin 0)%num || (mde >=? Fin 1)%num);
    [split; [discriminate | intros [_ [H _]]; discriminate] |].
  destruct ((confidence <=? Fin (8/10))%num || (confidence >=? Fin 1)%num);
    [split; [discriminate | intros [_ [_ [H _]]]; discriminate] |].
  destruct ((power <=? Fin (8/10))%num || (power >=? Fin 1)%num);
    [split; [discriminate | intros [_ [_ [_ H]]]; discriminate] |].
  split; [intros _; repeat split | reflexivity].
Qed.

Lemma Statistics_validateInputs_None_iff (v m c p : num) :
  Statistics.validateInputs v m c p = None
  <-> nan_or_within 0 1 v /\ nan_or_within 0 1 m
      /\ nan_or_within (8/10) 1 c /\ nan_or_within (8/10) 1 p.
Proof.
  rewrite <- !inclusive_test_passes. unfold Statistics.validateInputs.
  destruct ((v <? Fin 0)%num || (v >? Fin 1)%num);
    [split; [discriminate | intros [H _]; discriminate] |].
  destruct ((m <? Fin 0)%num || (m >? Fin 1)%num);
    [split; [discriminate | intros [_ [H _]]; discriminate] |].
  destruct ((c <? Fin (8/10))%num || (c >? Fin 1)%num);
    [split; [discriminate | intros [_ [_ [H _]]]; discriminate] |].
  destruct ((p <? Fin (8/10))%num || (p >? Fin 1)%num);
    [split; [discriminate | intros [_ [_ [_ H]]]; discriminate] |].
  split; [intros _; repeat split | reflexivity].
Qed.

(** X1.  [validateInputs] of [abTestingUtils.ts] accepts exactly the calls
    whose four arguments are each [NaN] or strictly inside their interval:
    a [NaN] passes every check, an infinite value none. *)
Theorem validateInputs_accepts_iff (baselineRate mde confidence power : num) :
  AbTestingUtils.validateInputs baselineRate mde confidence power = None
  <-> nan_or_inside 0 1 baselineRate /\ nan_or_inside 0 1 mde
      /\ nan_or_inside (8/10) 1 confidence /\ nan_or_inside (8/10) 1 power.
Proof. apply validateInputs_None_iff. Qed.

(** X2.  [validateInputs] of the [Statistics] copy accepts exactly the calls
    whose four arguments are each [NaN] or inside their closed interval. *)
Theorem Statistics_validateInputs_accepts_iff
  (value mde confidence power : num) :
  Statistics.validateInputs value mde confidence power = None
  <-> nan_or_within 0 1 value /\ nan_or_within 0 1 mde
      /\ nan_or_within (8/10) 1 confidence /\ nan_or_within (8/10) 1 power.
Proof. apply Statistics_validateInputs_None_iff. Qed.

Lemma strict_test_implies_inclusive (lo hi : R) (x : num) :
  (x <=? Fin lo)%num || (x >=? Fin hi)%num = false ->
  (x <? Fin lo)%num || (x >? Fin hi)%num = false.
Proof.
  rewrite strict_test_passes, inclusive_test_passes.
  intros [H | [r [E H]]]; [now left |].
  right. exists r. split; [exact E | lra].
Qed.

(** X3.  Whatever the strict validator of [abTestingUtils.ts] accepts, the
    inclusive validator of the [Statistics] copy accepts too. *)
Theorem validateInputs_strict_implies_inclusive
  (baselineRate mde confidence power : num) :
  AbTestingUtils.validateInputs baselineRate mde confidence power = None ->
  Statistics.validateInputs baselineRate mde confidence power = None.
Proof.
  unfold AbTestingUtils.validateInputs, Statistics.validateInputs.
  destruct ((baselineRate <=? Fin 0)%num || (baselineRate >=? Fin 1)%num)
    eqn:Eb; [discriminate |].
  destruct ((mde <=? Fin 0)%num || (mde >=? Fin 1)%num) eqn:Em;
    [discriminate |].
  destruct ((confidence <=? Fin (8/10))%num || (confidence >=? Fin 1)%num)
    eqn:Ec; [discriminate |].
  destruct ((power <=? Fin (8/10))%num || (power >=? Fin 1)%num) eqn:Ep;
    [discriminate |].
  intros _.
  now rewrite (strict_test_implies_inclusive _ _ _ Eb),
    (strict_test_implies_inclusive _ _ _ Em),
    (strict_test_implies_inclusive _ _ _ Ec),
    (strict_test_implies_inclusive _ _ _ Ep).
Qed.

Lemma validateInputs_strict_implies_inclusive_witness :
  Statistics.validateInputs
    (Fin (1/10)) NaN (Fin (95/100)) (Fin (9/10)) = None.
Proof.
  apply validateInputs_strict_implies_inclusive.
  unfold AbTestingUtils.validateInputs, ge, le. settle_cmp. reflexivity.
Defined.

(** ** Further properties of [calculateSampleSize] *)

Lemma add_NaN_r (a : num) : (a + NaN)%num = NaN.
Proof. destruct a; reflexivity. Qed.

Lemma mul_NaN_r (a : num) : (a * NaN)%num = NaN.
Proof. destruct a; reflexivity. Qed.

Lemma mul_NaN_l (a : num) : (NaN * a)%num = NaN.
Proof. destruct a; reflexivity. Qed.

Lemma add_NaN_l (a : num) : (NaN + a)%num = NaN.
Proof. destruct a; reflexivity. Qed.

Lemma normal_inv_NaN (PhiInv : R -> R) (mean std : num) :
  normal_inv PhiInv NaN mean std = NaN.
Proof. unfold normal_inv. cbn. now rewrite mul_NaN_r, add_NaN_l. Qed.

Create Rewrite HintDb nan_arith.
#[export] Hint Rewrite add_NaN_l add_NaN_r mul_NaN_l mul_NaN_r sub_NaN_l
  sub_NaN_r div_NaN_l div_NaN_r normal_inv_NaN : nan_arith.

(** The closed form behind [calculateSampleSize], as a real function. *)
Lemma calculateSampleSize_in_bounds (PhiInv : R -> R)
  (baselineRate mde confidence power : R) :
  0 < baselineRate < 1 -> 0 < mde < 1 ->
  8/10 < confidence < 1 -> 8/10 < power < 1 ->
  AbTestingUtils.calculateSampleSize PhiInv
    (Fin baselineRate) (Fin mde) (Fin confidence) (Fin power)
  = Return (Fin (IZR (Math.Zceil
      (sampleSizeClosedForm PhiInv baselineRate mde confidence power)))).
Proof.
  intros Hb Hm Hc Hp. unfold AbTestingUtils.calculateSampleSize.
  replace (AbTestingUtils.validateInputs _ _ _ _) with (@None string).
  2:{ unfold AbTestingUtils.validateInputs, ge, le. settle_cmp. reflexivity. }
  cbn [thrown]. fin_simpl.
  rewrite div_Fin by (apply pow_nonzero; nra).
  reflexivity.
Qed.

Section SampleSizeShape.

Variable PhiInv : R -> R.

(** X4.  A [NaN] argument is not an error for [calculateSampleSize]: when
    the validator accepts the call and one of the four arguments is [NaN],
    the number returned is [NaN]. *)
Theorem calculateSampleSize_NaN_in_NaN_out
  (baselineRate mde confidence power : num) :
  AbTestingUtils.validateInputs baselineRate mde confidence power = None ->
  baselineRate = NaN \/ mde = NaN \/ confidence = NaN \/ power = NaN ->
  AbTestingUtils.calculateSampleSize PhiInv
    baselineRate mde confidence power = Return NaN.
Proof.
  intros Hvalid Hnan. unfold AbTestingUtils.calculateSampleSize.
  rewrite Hvalid. cbn [thrown]. f_equal.
  destruct Hnan as [-> | [-> | [-> | ->]]];
    autorewrite with nan_arith; cbn [Math.pow Math.ceil];
    autorewrite with nan_arith; reflexivity.
Qed.

(** Quantiles above the median are positive. *)
Hypothesis PhiInv_pos : forall p : R, 1/2 < p < 1 -> 0 < PhiInv p.

(** The sign of the closed form on parameters inside their bounds. *)
Lemma sampleSizeClosedForm_sign (baselineRate mde confidence power : R) :
  0 < baselineRate < 1 -> 0 < mde < 1 ->
  8/10 < confidence < 1 -> 8/10 < power < 1 ->
  (0 < sampleSizeClosedForm PhiInv baselineRate mde confidence power
   <-> baselineRate * (2 + mde) < 2).
Proof.
  intros Hb Hm Hc Hp.
  set (x := sampleSizeClosedForm PhiInv baselineRate mde confidence power).
  assert (HzA : 0 < PhiInv (1 - (1 - confidence) / 2))
    by (apply PhiInv_pos; lra).
  assert (HzB : 0 < PhiInv power) by (apply PhiInv_pos; lra).
  assert (Hx : x = (PhiInv (1 - (1 - confidence) / 2) + PhiInv power) ^ 2
                   * (2 + mde) / (2 * baselineRate * mde ^ 2)
                   * (2 - baselineRate * (2 + mde))).
  { subst x. unfold sampleSizeClosedForm. cbv zeta. field.
    repeat split; try lra.
    replace (baselineRate * (1 + mde) - baselineRate)
      with (baselineRate * mde) by ring.
    apply Rmult_integral_contrapositive; lra. }
  assert (Hk : 0 < (PhiInv (1 - (1 - confidence) / 2) + PhiInv power) ^ 2
                   * (2 + mde) / (2 * baselineRate * mde ^ 2)).
  { apply Rdiv_lt_0_compat.
    - apply Rmult_lt_0_compat; [apply pow_lt |]; lra.
    - assert (0 < mde ^ 2) by (apply pow_lt; lra). nra. }
  rewrite Hx. split; intros H; nra.
Qed.

(** X19.  Every preset of [useCases] is a usable pair: with any confidence
    and power strictly inside their bounds, [calculateSampleSize] accepts
    its [baselineRate] and [mde] and returns a positive integer. *)
Theorem useCases_give_positive_sizes (confidence power : R) :
  8/10 < confidence < 1 -> 8/10 < power < 1 ->
  Forall (fun useCase =>
            exists n : Z,
              AbTestingUtils.calculateSampleSize PhiInv
                (UseCase.baselineRate useCase) (UseCase.mde useCase)
                (Fin confidence) (Fin power) = Return (Fin (IZR n))
              /\ (0 < n)%Z)
    useCases.
Proof.
  intros Hc Hp. unfold useCases.
  repeat (constructor;
          [ cbn [UseCase.baselineRate UseCase.mde]; eexists;
            split; [apply calculateSampleSize_in_bounds; lra |];
            apply Zceil_pos; apply sampleSizeClosedForm_sign; lra |]).
  constructor.
Qed.

End SampleSizeShape.

Lemma calculateSampleSize_NaN_in_NaN_out_witness :
  AbTestingUtils.calculateSampleSize linear_inv
    NaN (Fin (5/100)) (Fin (95/100)) (Fin (9/10)) = Return NaN.
Proof.
  apply calculateSampleSize_NaN_in_NaN_out; [| now left].
  unfold AbTestingUtils.validateInputs, ge, le. settle_cmp. reflexivity.
Defined.

Lemma linear_inv_pos (p : R) : 1/2 < p < 1 -> 0 < linear_inv p.
Proof. unfold linear_inv. lra. Qed.

Lemma useCases_give_positive_sizes_witness :
  exists n : Z,
    AbTestingUtils.calculateSampleSize linear_inv
      (Fin (5/100)) (Fin (2/10)) (Fin (95/100)) (Fin (9/10))
    = Return (Fin (IZR n))
    /\ (0 < n)%Z.
Proof.
  exact (Forall_inv (useCases_give_positive_sizes linear_inv linear_inv_pos
                       (95/100) (9/10) ltac:(lra) ltac:(lra))).
Defined.

(** ** Further properties of [analyzeResults] *)

Lemma lt_Fin_weaken (a : num) (x y : R) :
  x <= y -> (a <? Fin x)%num = true -> (a <? Fin y)%num = true.
Proof.
  intros Hxy. destruct a as [v | | |]; cbn; try easy.
  unfold Rltb. destruct (Rlt_dec v x); [| discriminate].
  intros _. destruct (Rlt_dec v y); [reflexivity | lra].
Qed.

Lemma successes_Permutation (bs bs' : list bool) :
  Permutation bs bs' -> successes bs = successes bs'.
Proof.
  intros H. unfold successes.
  now apply (Permutation_count_occ bool_dec).
Qed.

Lemma mean_Permutation (bs bs' : list bool) :
  Permutation bs bs' -> mean bs = mean bs'.
Proof.
  intros H. unfold mean.
  now rewrite (successes_Permutation _ _ H), (Permutation_length H).
Qed.

Section AnalyzerShape.

Variable Phi : R -> R.
Variable PhiInv : R -> R.

(** X8.  The two copies of the analysis agree: on all arrays
    [analyzeResults] of [Statistics] returns the same rates, relative
    improvement, p-value and significance as that of [AbTestingUtils], and
    the two [sequentialAnalysis] return the same thing for every amount of
    fuel. *)
Theorem analysis_copies_agree
  (controlData variantData : list num) (confidence : num) :
  (exists (r : AbTestingUtils.OutcomeRecord) (r' : Statistics.OutcomeRecord),
      AbTestingUtils.analyzeResults Phi PhiInv controlData variantData
        confidence = Return r
      /\ Statistics.analyzeResults Phi PhiInv controlData variantData
           confidence = Return r'
      /\ Statistics.controlRate r' = AbTestingUtils.controlRate r
      /\ Statistics.variantRate r' = AbTestingUtils.variantRate r
      /\ Statistics.relativeImprovement r'
         = AbTestingUtils.relativeImprovement r
      /\ Statistics.pValue r' = AbTestingUtils.pValue r
      /\ Statistics.significant r' = AbTestingUtils.significant r)
  /\ (forall (fuel : nat) (minSampleSize : Z),
        Statistics.sequentialAnalysis Phi PhiInv fuel controlData variantData
          minSampleSize confidence
        = AbTestingUtils.sequentialAnalysis Phi PhiInv fuel controlData
            variantData minSampleSize confidence).
Proof.
  split.
  - do 2 eexists. split; [reflexivity |]. split; [reflexivity |].
    repeat split; reflexivity.
  - intros fuel minSampleSize. apply sequentialAnalysis_copies.
Qed.

(** X9.  Lowering the confidence level never loses significance: the p-value
    does not depend on the confidence level, and a result significant at
    [confidence'] is significant at every lower level. *)
Theorem analyzeResults_significance_monotone
  (controlData variantData : list num) (confidence confidence' : R) :
  confidence <= confidence' ->
  exists r r' : AbTestingUtils.OutcomeRecord,
    AbTestingUtils.analyzeResults Phi PhiInv controlData variantData
      (Fin confidence) = Return r
    /\ AbTestingUtils.analyzeResults Phi PhiInv controlData variantData
         (Fin confidence') = Return r'
    /\ AbTestingUtils.pValue r = AbTestingUtils.pValue r'
    /\ (AbTestingUtils.significant r' = true ->
        AbTestingUtils.significant r = true).
Proof.
  intros Hle. do 2 eexists. split; [reflexivity |]. split; [reflexivity |].
  split; [reflexivity |].
  cbn [AbTestingUtils.significant]. rewrite !sub_Fin.
  apply lt_Fin_weaken. lra.
Qed.

(** X10.  The order of the observations inside an arm does not matter: two
    pairs of [{0,1}]-sequences that are rearrangements of one another get
    the same record. *)
Theorem analyzeResults_order_irrelevant
  (bs1 bs1' bs2 bs2' : list bool) (confidence : num) :
  Permutation bs1 bs1' -> Permutation bs2 bs2' ->
  AbTestingUtils.analyzeResults Phi PhiInv (of_bits bs1) (of_bits bs2)
    confidence
  = AbTestingUtils.analyzeResults Phi PhiInv (of_bits bs1') (of_bits bs2')
      confidence.
Proof.
  intros P1 P2. unfold AbTestingUtils.analyzeResults.
  rewrite !reduce_sum_of_bits, !length_num_of_bits.
  now rewrite (successes_Permutation _ _ P1), (successes_Permutation _ _ P2),
    (Permutation_length P1), (Permutation_length P2).
Qed.

(** X11.  The relative improvement on two non-empty [{0,1}]-sequences: the
    real number [(variantRate - controlRate) / controlRate], at least [-1],
    when the control arm has a success; [+Infinity] when only the variant
    arm has one; [NaN] when neither has. *)
Theorem analyzeResults_relativeImprovement
  (bs1 bs2 : list bool) (confidence : num) :
  bs1 <> [] -> bs2 <> [] ->
  exists r : AbTestingUtils.OutcomeRecord,
    AbTestingUtils.analyzeResults Phi PhiInv (of_bits bs1) (of_bits bs2)
      confidence = Return r
    /\ (successes bs1 <> 0%nat ->
        AbTestingUtils.relativeImprovement r
        = Fin ((mean bs2 - mean bs1) / mean bs1)
        /\ -1 <= (mean bs2 - mean bs1) / mean bs1)
    /\ (successes bs1 = 0%nat -> successes bs2 <> 0%nat ->
        AbTestingUtils.relativeImprovement r = PInf)
    /\ (successes bs1 = 0%nat -> successes bs2 = 0%nat ->
        AbTestingUtils.relativeImprovement r = NaN).
Proof.
  intros H1 H2.
  pose proof (length_pos bs1 H1) as Hn1. pose proof (length_pos bs2 H2) as Hn2.
  pose proof (mean_bounds bs2 H2) as Hm2.
  assert (Hmean_pos : forall bs, bs <> [] -> successes bs <> 0%nat ->
                                 0 < mean bs).
  { intros bs Hne Hs. unfold mean. apply Rdiv_lt_0_compat.
    - apply lt_0_INR. lia.
    - now apply length_pos. }
  assert (Hmean_zero : forall bs, successes bs = 0%nat -> mean bs = 0).
  { intros bs Hs. unfold mean. rewrite Hs. cbn. unfold Rdiv. ring. }
  eexists. split; [apply analyzeResults_of_bits; assumption |].
  cbn [AbTestingUtils.relativeImprovement]. repeat split.
  - pose proof (Hmean_pos bs1 H1 H). now fin_simpl.
  - pose proof (Hmean_pos bs1 H1 H) as Hpos.
    apply (Rmult_le_reg_r (mean bs1)); [exact Hpos |].
    unfold Rdiv. rewrite Rmult_assoc, Rinv_l by lra. lra.
  - intros Hs1 Hs2. rewrite (Hmean_zero bs1 Hs1).
    pose proof (Hmean_pos bs2 H2 Hs2).
    unfold div. rewrite Reqb_true by reflexivity.
    rewrite Reqb_false by lra. now rewrite Rltb_true by lra.
  - intros Hs1 Hs2. rewrite (Hmean_zero bs1 Hs1), (Hmean_zero bs2 Hs2).
    replace (0 - 0) with 0 by ring. exact div_0_0.
Qed.

(** X12.  An arm without a success, or with nothing but successes, gets an
    interval of width zero: both ends are the rate itself, [0] or [1]. *)
Theorem analyzeResults_interval_collapses
  (bs1 bs2 : list bool) (confidence : R) :
  bs1 <> [] -> bs2 <> [] ->
  exists r : AbTestingUtils.OutcomeRecord,
    AbTestingUtils.analyzeResults Phi PhiInv (of_bits bs1) (of_bits bs2)
      (Fin confidence) = Return r
    /\ (successes bs1 = 0%nat \/ successes bs1 = List.length bs1 ->
        control (AbTestingUtils.confidenceIntervals r)
        = (Fin (mean bs1), Fin (mean bs1))
        /\ (mean bs1 = 0 \/ mean bs1 = 1))
    /\ (successes bs2 = 0%nat \/ successes bs2 = List.length bs2 ->
        variant (AbTestingUtils.confidenceIntervals r)
        = (Fin (mean bs2), Fin (mean bs2))
        /\ (mean bs2 = 0 \/ mean bs2 = 1)).
Proof.
  intros H1 H2.
  assert (Hmean : forall bs, bs <> [] ->
            successes bs = 0%nat \/ successes bs = List.length bs ->
            mean bs = 0 \/ mean bs = 1).
  { intros bs Hne Hs. pose proof (length_pos bs Hne). unfold mean.
    destruct Hs as [-> | ->].
    - left. cbn. unfold Rdiv. ring.
    - right. apply Rdiv_diag. lra. }
  assert (Hse : forall bs, mean bs = 0 \/ mean bs = 1 ->
                           armStandardError bs = 0).
  { intros bs Hm. unfold armStandardError.
    destruct Hm as [-> | ->];
      [ replace (0 * (1 - 0) / _) with 0 by (unfold Rdiv; ring)
      | replace (1 * (1 - 1) / _) with 0 by (unfold Rdiv; ring) ];
      apply sqrt_0. }
  eexists. split; [apply analyzeResults_of_bits; assumption |].
  cbn [AbTestingUtils.confidenceIntervals control variant]. fin_simpl.
  split; intros Hs.
  - pose proof (Hmean bs1 H1 Hs) as Hm. rewrite (Hse bs1 Hm).
    split; [| exact Hm]. f_equal; f_equal; ring.
  - pose proof (Hmean bs2 H2 Hs) as Hm. rewrite (Hse bs2 Hm).
    split; [| exact Hm]. f_equal; f_equal; ring.
Qed.

End AnalyzerShape.

Section AnalyzerDistribution.

Variable Phi : R -> R.
Variable PhiInv : R -> R.

(** On non-negative arguments the distribution function lies between [1/2]
    and [1]. *)
Hypothesis Phi_range : forall x : R, 0 <= x -> 1/2 <= Phi x <= 1.

(** X13.  When the standard error is not zero the p-value is a real number
    between [0] and [1]. *)
Theorem analyzeResults_pValue_range
  (bs1 bs2 : list bool) (confidence : num) :
  bs1 <> [] -> bs2 <> [] -> standardError bs1 bs2 <> 0 ->
  exists (r : AbTestingUtils.OutcomeRecord) (p : R),
    AbTestingUtils.analyzeResults Phi PhiInv (of_bits bs1) (of_bits bs2)
      confidence = Return r
    /\ AbTestingUtils.pValue r = Fin p
    /\ 0 <= p <= 1.
Proof.
  intros H1 H2 Hse. do 2 eexists.
  split; [apply analyzeResults_of_bits; assumption |].
  cbn [AbTestingUtils.pValue]. unfold twoSidedP, zScore. fin_simpl.
  split; [reflexivity |].
  pose proof (Phi_range _ (Rabs_pos ((mean bs2 - mean bs1)
                                     / standardError bs1 bs2))).
  lra.
Qed.

(** The median of the distribution is [0]. *)
Hypothesis Phi_median : Phi 0 = 1/2.

(** X14.  Two arms with the same rate, not both without or both full of
    successes, are never told apart: the p-value is [1] and, for a
    confidence level that is not negative, the result is not significant and
    the conclusion is the inconclusive one. *)
Theorem analyzeResults_equal_rates
  (bs1 bs2 : list bool) (confidence : R) :
  bs1 <> [] -> bs2 <> [] -> standardError bs1 bs2 <> 0 ->
  mean bs1 = mean bs2 -> 0 <= confidence ->
  exists r : AbTestingUtils.OutcomeRecord,
    AbTestingUtils.analyzeResults Phi PhiInv (of_bits bs1) (of_bits bs2)
      (Fin confidence) = Return r
    /\ AbTestingUtils.pValue r = Fin 1
    /\ AbTestingUtils.significant r = false
    /\ AbTestingUtils.conclusion r
       = "The test results are inconclusive."%string.
Proof.
  intros H1 H2 Hse Heq Hc. eexists.
  split; [apply analyzeResults_of_bits; assumption |].
  cbn [AbTestingUtils.pValue AbTestingUtils.significant
       AbTestingUtils.conclusion].
  assert (Hp : twoSidedP Phi (zScore bs1 bs2) = Fin 1).
  { unfold twoSidedP, zScore. rewrite Heq. fin_simpl.
    replace ((mean bs2 - mean bs2) / standardError bs1 bs2) with 0
      by (unfold Rdiv; ring).
    cbn [Math.abs]. rewrite Rabs_R0. fin_simpl. rewrite Phi_median.
    f_equal. lra. }
  rewrite Hp. fin_simpl. cbn [lt]. rewrite Rltb_false by lra.
  repeat split; reflexivity.
Qed.

End AnalyzerDistribution.

Lemma analyzeResults_significance_monotone_witness :
  exists r r' : AbTestingUtils.OutcomeRecord,
    AbTestingUtils.analyzeResults linear_cdf linear_inv
      [Fin 1; Fin 0] [Fin 1; Fin 1] (Fin (9/10)) = Return r
    /\ AbTestingUtils.analyzeResults linear_cdf linear_inv
         [Fin 1; Fin 0] [Fin 1; Fin 1] (Fin (95/100)) = Return r'
    /\ AbTestingUtils.pValue r = AbTestingUtils.pValue r'.
Proof.
  destruct (analyzeResults_significance_monotone linear_cdf linear_inv
              [Fin 1; Fin 0] [Fin 1; Fin 1] (9/10) (95/100) ltac:(lra))
    as [r [r' [Hr [Hr' [Hp _]]]]].
  exists r, r'. repeat split; assumption.
Defined.

Lemma analyzeResults_order_irrelevant_witness :
  AbTestingUtils.analyzeResults linear_cdf linear_inv
    (of_bits [true; false; false]) (of_bits [false; true]) (Fin (95/100))
  = AbTestingUtils.analyzeResults linear_cdf linear_inv
      (of_bits [false; false; true]) (of_bits [true; false]) (Fin (95/100)).
Proof.
  apply analyzeResults_order_irrelevant.
  - apply (Permutation_cons_app [false; false] [] true).
    apply Permutation_refl.
  - apply perm_swap.
Defined.

Lemma analyzeResults_relativeImprovement_witness :
  exists r : AbTestingUtils.OutcomeRecord,
    AbTestingUtils.analyzeResults linear_cdf linear_inv
      (of_bits [false; false]) (of_bits [true; false]) (Fin (95/100))
    = Return r
    /\ AbTestingUtils.relativeImprovement r = PInf.
Proof.
  destruct (analyzeResults_relativeImprovement linear_cdf linear_inv
              [false; false] [true; false] (Fin (95/100))
              ltac:(discriminate) ltac:(discriminate))
    as [r [Hret [_ [Hinf _]]]].
  exists r. split; [exact Hret |].
  apply Hinf; [reflexivity | discriminate].
Defined.

Lemma analyzeResults_interval_collapses_witness :
  exists r : AbTestingUtils.OutcomeRecord,
    AbTestingUtils.analyzeResults linear_cdf linear_inv
      (of_bits [true; true; true]) (of_bits [true; false]) (Fin (95/100))
    = Return r
    /\ control (AbTestingUtils.confidenceIntervals r)
       = (Fin (mean [true; true; true]), Fin (mean [true; true; true])).
Proof.
  destruct (analyzeResults_interval_collapses linear_cdf linear_inv
              [true; true; true] [true; false] (95/100)
              ltac:(discriminate) ltac:(discriminate))
    as [r [Hret [Hci _]]].
  exists r. split; [exact Hret |].
  exact (proj1 (Hci (or_intror eq_refl))).
Defined.

Lemma standardError_example : standardError [true; false] [true; false] <> 0.
Proof.
  unfold standardError, pooledRate, successes. cbn.
  match goal with
  | |- sqrt ?x <> 0 => replace x with (1/4) by field
  end.
  intros H. apply sqrt_eq_0 in H; lra.
Qed.

Lemma uniform_cdf_range (x : R) : 0 <= x -> 1/2 <= uniform_cdf x <= 1.
Proof.
  intros Hx. unfold uniform_cdf.
  destruct (Rle_dec 1 (x + 1/2)) as [H | H].
  - rewrite Rmin_left, Rmax_right by lra. lra.
  - rewrite Rmin_right, Rmax_right by lra. lra.
Qed.

Lemma uniform_cdf_median : uniform_cdf 0 = 1/2.
Proof.
  unfold uniform_cdf. rewrite Rmin_right, Rmax_right by lra. lra.
Qed.

Lemma analyzeResults_pValue_range_witness :
  exists (r : AbTestingUtils.OutcomeRecord) (p : R),
    AbTestingUtils.analyzeResults uniform_cdf linear_inv
      (of_bits [true; false]) (of_bits [true; false]) (Fin (95/100))
    = Return r
    /\ AbTestingUtils.pValue r = Fin p
    /\ 0 <= p <= 1.
Proof.
  exact (analyzeResults_pValue_range uniform_cdf linear_inv uniform_cdf_range
           [true; false] [true; false] (Fin (95/100))
           ltac:(discriminate) ltac:(discriminate) standardError_example).
Defined.

Lemma analyzeResults_equal_rates_witness :
  exists r : AbTestingUtils.OutcomeRecord,
    AbTestingUtils.analyzeResults uniform_cdf linear_inv
      (of_bits [true; false]) (of_bits [true; false]) (Fin (95/100))
    = Return r
    /\ AbTestingUtils.pValue r = Fin 1
    /\ AbTestingUtils.significant r = false.
Proof.
  destruct (analyzeResults_equal_rates uniform_cdf linear_inv
              uniform_cdf_median
              [true; false] [true; false] (95/100)
              ltac:(discriminate) ltac:(discriminate) standardError_example
              eq_refl ltac:(lra))
    as [r [Hret [Hp [Hs _]]]].
  exists r. repeat split; assumption.
Defined.

(** ** Further properties of [sequentialAnalysis] *)

Lemma multiples_length (k : Z) (n : nat) : List.length (multiples k n) = n.
Proof. unfold multiples. now rewrite length_map, length_seq. Qed.

Lemma multiples_app (k : Z) (n m : nat) :
  multiples k (n + m)
  = multiples k n ++ map (fun i => (Z.of_nat (S i) * k)%Z) (seq n m).
Proof. unfold multiples. now rewrite seq_app, map_app. Qed.

Lemma multiples_upper_bound (k : Z) (n : nat) :
  (0 < k)%Z -> Forall (fun s => (0 <= s <= Z.of_nat n * k)%Z) (multiples k n).
Proof.
  intros Hk. unfold multiples. apply Forall_forall. intros s Hin.
  apply in_map_iff in Hin. destruct Hin as [i [<- Hi]].
  apply in_seq in Hi. nia.
Qed.

Lemma checkpoint_sizes (Phi PhiInv : R -> R)
  (controlData variantData : list num) (confidence : num)
  (sizes : list Z) (cps : list Checkpoint.t) :
  Forall2 (is_checkpoint Phi PhiInv controlData variantData confidence)
    sizes cps ->
  map Checkpoint.sampleSize cps = sizes.
Proof.
  induction 1 as [| s cp ss cps' [Hs _] _ IH]; [reflexivity |].
  cbn [map]. now rewrite Hs, IH.
Qed.

(** A checkpoint is determined by its prefix length. *)
Lemma is_checkpoint_unique (Phi PhiInv : R -> R)
  (controlData variantData : list num) (confidence : num)
  (size : Z) (cp cp' : Checkpoint.t) :
  is_checkpoint Phi PhiInv controlData variantData confidence size cp ->
  is_checkpoint Phi PhiInv controlData variantData confidence size cp' ->
  cp = cp'.
Proof.
  intros [Hs [r [Hr [Hp Hi]]]] [Hs' [r' [Hr' [Hp' Hi']]]].
  rewrite Hr in Hr'. inversion Hr'; subst r'.
  destruct cp, cp'; cbn in *. congruence.
Qed.

Lemma checkpoints_unique (Phi PhiInv : R -> R)
  (controlData variantData : list num) (confidence : num)
  (sizes : list Z) (cps cps' : list Checkpoint.t) :
  Forall2 (is_checkpoint Phi PhiInv controlData variantData confidence)
    sizes cps ->
  Forall2 (is_checkpoint Phi PhiInv controlData variantData confidence)
    sizes cps' ->
  cps = cps'.
Proof.
  intros H. revert cps'.
  induction H as [| s cp ss cps Hcp _ IH]; intros cps' H'.
  - now inversion H'.
  - inversion H' as [| s' cp' ss' cps'' Hcp' Hrest]; subst.
    f_equal; [eapply is_checkpoint_unique; eassumption | now apply IH].
Qed.

(** Data past the prefix does not change a checkpoint. *)
Lemma is_checkpoint_more_data (Phi PhiInv : R -> R)
  (controlData variantData moreControl moreVariant : list num)
  (confidence : num) (size : Z) (cp : Checkpoint.t) :
  (Z.to_nat size <= List.length controlData)%nat ->
  (Z.to_nat size <= List.length variantData)%nat ->
  is_checkpoint Phi PhiInv (controlData ++ moreControl)
    (variantData ++ moreVariant) confidence size cp ->
  is_checkpoint Phi PhiInv controlData variantData confidence size cp.
Proof.
  intros Hc Hv. unfold is_checkpoint.
  rewrite !firstn_app.
  replace (Z.to_nat size - List.length controlData)%nat with 0%nat by lia.
  replace (Z.to_nat size - List.length variantData)%nat with 0%nat by lia.
  cbn [firstn]. now rewrite !app_nil_r.
Qed.

Section SequentialShape.

Variable Phi : R -> R.
Variable PhiInv : R -> R.

(** The run of [sequentialAnalysis] for a positive checkpoint size. *)
Lemma sequentialAnalysis_runs
  (controlData variantData : list num) (k : Z) (confidence : num)
  (fuel : nat) :
  let shorter :=
    Nat.min (List.length controlData) (List.length variantData) in
  (0 < k)%Z -> (Z.to_nat (Z.of_nat shorter / k) < fuel)%nat ->
  exists cps : list Checkpoint.t,
    AbTestingUtils.sequentialAnalysis Phi PhiInv fuel controlData variantData
      k confidence = Some (Return cps)
    /\ Forall2 (is_checkpoint Phi PhiInv controlData variantData confidence)
         (multiples k (Z.to_nat (Z.of_nat shorter / k))) cps.
Proof.
  intros shorter Hk Hfuel.
  destruct (sequentialAnalysis_loop_runs Phi PhiInv controlData variantData
              k confidence (Z.of_nat shorter)
              (Z.to_nat (Z.of_nat shorter / k)) Hk ltac:(lia)
              0%nat fuel [] ltac:(lia) Hfuel ltac:(constructor))
    as [cps [Hrun Hall]].
  exists cps. split; [| exact Hall].
  unfold AbTestingUtils.sequentialAnalysis, Math.min. fold shorter.
  rewrite <- Hrun. f_equal. lia.
Qed.

(** X15.  On arrays of different lengths [sequentialAnalysis] stops at the
    shorter one: for [k > 0] it returns [floor (min (N1, N2) / k)]
    checkpoints at the prefix lengths [k, 2k, ...], and none at all when
    [k] exceeds the shorter length. *)
Theorem sequentialAnalysis_shorter_arm
  (controlData variantData : list num) (k : Z) (confidence : num)
  (fuel : nat) :
  let shorter :=
    Nat.min (List.length controlData) (List.length variantData) in
  (0 < k)%Z -> (Z.to_nat (Z.of_nat shorter / k) < fuel)%nat ->
  exists cps : list Checkpoint.t,
    AbTestingUtils.sequentialAnalysis Phi PhiInv fuel controlData variantData
      k confidence = Some (Return cps)
    /\ Z.of_nat (List.length cps) = (Z.of_nat shorter / k)%Z
    /\ map Checkpoint.sampleSize cps = multiples k (List.length cps)
    /\ Forall2 (is_checkpoint Phi PhiInv controlData variantData confidence)
         (multiples k (List.length cps)) cps
    /\ ((Z.of_nat shorter < k)%Z -> cps = []).
Proof.
  intros shorter Hk Hfuel.
  destruct (sequentialAnalysis_runs controlData variantData k confidence
              fuel Hk Hfuel) as [cps [Hrun Hall]].
  fold shorter in Hall.
  assert (Hq : (0 <= Z.of_nat shorter / k)%Z) by (apply Z.div_pos; lia).
  assert (Hlen : List.length cps = Z.to_nat (Z.of_nat shorter / k)).
  { apply Forall2_length in Hall. now rewrite multiples_length in Hall. }
  exists cps. split; [exact Hrun |]. split; [lia |].
  rewrite Hlen. split; [now apply (checkpoint_sizes Phi PhiInv
                                     controlData variantData confidence) |].
  split; [exact Hall |].
  intros Hsmall. rewrite Z.div_small in Hlen by lia.
  now destruct cps.
Qed.

(** X16.  When the common length [N > 0] of the two arrays is a multiple of
    the checkpoint size, the last checkpoint is the analysis of the whole
    data: its [sampleSize] is [N] and its [pValue] and
    [relativeImprovement] are those [analyzeResults] gives on the two
    arrays. *)
Theorem sequentialAnalysis_last_checkpoint
  (controlData variantData : list num) (k : Z) (confidence : num)
  (q fuel : nat) :
  (0 < k)%Z ->
  Z.of_nat (List.length controlData) = (Z.of_nat (S q) * k)%Z ->
  List.length variantData = List.length controlData ->
  (S q < fuel)%nat ->
  exists (cps : list Checkpoint.t) (r : AbTestingUtils.OutcomeRecord),
    AbTestingUtils.analyzeResults Phi PhiInv controlData variantData
      confidence = Return r
    /\ AbTestingUtils.sequentialAnalysis Phi PhiInv fuel controlData
         variantData k confidence
       = Some (Return
           (cps ++ [ {| Checkpoint.sampleSize :=
                          Z.of_nat (List.length controlData);
                        Checkpoint.pValue := AbTestingUtils.pValue r;
                        Checkpoint.relativeImprovement :=
                          AbTestingUtils.relativeImprovement r |} ]))
    /\ List.length cps = q.
Proof.
  intros Hk HN Hv Hfuel.
  assert (Hdiv : (Z.of_nat (List.length controlData) / k)%Z
                 = Z.of_nat (S q)).
  { rewrite HN. apply Z.div_mul. lia. }
  destruct (sequentialAnalysis_runs controlData variantData k confidence fuel
              Hk) as [cps [Hrun Hall]].
  { rewrite Hv, Nat.min_id, Hdiv. lia. }
  rewrite Hv, Nat.min_id, Hdiv, Nat2Z.id, multiples_snoc in Hall.
  rewrite <- HN in Hall.
  remember (Z.of_nat (List.length controlData)) as size eqn:Esize.
  apply Forall2_app_inv_l in Hall.
  destruct Hall as [cps' [last [Hcps' [Hlast ->]]]].
  inversion Hlast as [| s cp ss rest Hcp Hnil]; subst s ss last.
  inversion Hnil; subst rest.
  destruct Hcp as [Hs [r [Hr [Hp Hi]]]].
  rewrite Esize, Nat2Z.id in Hr.
  rewrite firstn_all in Hr. rewrite <- Hv, firstn_all in Hr.
  exists cps', r. split; [exact Hr |]. split.
  - rewrite Hrun. do 3 f_equal. destruct cp; cbn in *. now subst.
  - apply Forall2_length in Hcps'. now rewrite multiples_length in Hcps'.
Qed.

(** X17.  Checkpoints are stable as data accumulates: when data is appended
    to two arrays of the same length, the checkpoints of the longer arrays
    start with the checkpoints of the original ones. *)
Theorem sequentialAnalysis_prefix_stable
  (controlData variantData moreControl moreVariant : list num)
  (k : Z) (confidence : num) (fuel : nat) :
  (0 < k)%Z ->
  List.length variantData = List.length controlData ->
  (Z.to_nat
     (Z.of_nat (Nat.min (List.length (controlData ++ moreControl))
                        (List.length (variantData ++ moreVariant))) / k)
   < fuel)%nat ->
  exists cps later : list Checkpoint.t,
    AbTestingUtils.sequentialAnalysis Phi PhiInv fuel controlData variantData
      k confidence = Some (Return cps)
    /\ AbTestingUtils.sequentialAnalysis Phi PhiInv fuel
         (controlData ++ moreControl) (variantData ++ moreVariant)
         k confidence = Some (Return (cps ++ later)).
Proof.
  intros Hk Hv Hfuel.
  set (N := List.length controlData) in *.
  set (L := Nat.min (List.length (controlData ++ moreControl))
                    (List.length (variantData ++ moreVariant))) in *.
  assert (HNL : (N <= L)%nat).
  { subst L. rewrite !length_app, Hv. fold N. lia. }
  assert (Hq : (Z.of_nat N / k <= Z.of_nat L / k)%Z)
    by (apply Z.div_le_mono; lia).
  assert (Hq0 : (0 <= Z.of_nat N / k)%Z) by (apply Z.div_pos; lia).
  destruct (sequentialAnalysis_runs controlData variantData k confidence fuel
              Hk) as [cps [Hrun Hall]].
  { rewrite Hv, Nat.min_id. fold N. lia. }
  destruct (sequentialAnalysis_runs (controlData ++ moreControl)
              (variantData ++ moreVariant) k confidence fuel Hk Hfuel)
    as [cpsL [HrunL HallL]].
  fold L in HallL. rewrite Hv, Nat.min_id in Hall. fold N in Hall.
  replace (Z.to_nat (Z.of_nat L / k))
    with (Z.to_nat (Z.of_nat N / k)
          + (Z.to_nat (Z.of_nat L / k) - Z.to_nat (Z.of_nat N / k)))%nat
    in HallL by lia.
  rewrite multiples_app in HallL.
  apply Forall2_app_inv_l in HallL.
  destruct HallL as [early [later [Hearly [_ ->]]]].
  exists cps, later. split; [exact Hrun |].
  rewrite HrunL. do 3 f_equal.
  apply (checkpoints_unique Phi PhiInv controlData variantData confidence
           (multiples k (Z.to_nat (Z.of_nat N / k)))); [| exact Hall].
  pose proof (multiples_upper_bound k (Z.to_nat (Z.of_nat N / k)) Hk)
    as Hbound.
  pose proof (Z.mul_div_le (Z.of_nat N) k Hk) as Hlow.
  clear - Hearly Hbound Hlow Hq0 Hv Hk. 
  induction Hearly as [| s cp ss cps' Hcp _ IH]; [constructor |].
  inversion Hbound as [| s' ss' Hs Hrest]; subst.
  constructor; [| now apply IH].
  apply (is_checkpoint_more_data Phi PhiInv controlData variantData
           moreControl moreVariant); [| | exact Hcp];
    rewrite ?Hv; fold N; nia.
Qed.

(** X18.  The checkpoint size the callers pass is
    [Math.floor(sampleSize / 10)].  For two arrays of [N >= 10]
    observations this gives between 10 and 19 checkpoints; for
    [0 < N < 10] it is [0] and the call never returns. *)
Theorem sequentialAnalysis_callers_step
  (controlData variantData : list num) (confidence : num) (N : nat) :
  List.length controlData = N -> List.length variantData = N ->
  ((10 <= N)%nat ->
   forall fuel : nat, (20 <= fuel)%nat ->
   exists cps : list Checkpoint.t,
     AbTestingUtils.sequentialAnalysis Phi PhiInv fuel controlData
       variantData (Z.of_nat N / 10) confidence = Some (Return cps)
     /\ (10 <= List.length cps <= 19)%nat)
  /\ ((N < 10)%nat ->
      forall fuel : nat,
        AbTestingUtils.sequentialAnalysis Phi PhiInv fuel controlData
          variantData (Z.of_nat N / 10) confidence = None).
Proof.
  intros Hc Hv. split.
  - intros HN fuel Hfuel.
    set (k := (Z.of_nat N / 10)%Z).
    assert (Hk : (1 <= k)%Z) by (subst k; apply Z.div_le_lower_bound; lia).
    pose proof (Z.mul_div_le (Z.of_nat N) 10 ltac:(lia)) as Hlow.
    pose proof (Z.mul_succ_div_gt (Z.of_nat N) 10 ltac:(lia)) as Hhigh.
    fold k in Hlow, Hhigh.
    assert (Hq : (10 <= Z.of_nat N / k <= 19)%Z).
    { split.
      - apply Z.div_le_lower_bound; lia.
      - apply Z.lt_succ_r. apply Z.div_lt_upper_bound; lia. }
    destruct (sequentialAnalysis_runs controlData variantData k confidence
                fuel ltac:(lia)) as [cps [Hrun Hall]].
    { rewrite Hc, Hv, Nat.min_id. lia. }
    exists cps. split; [exact Hrun |].
    apply Forall2_length in Hall.
    rewrite multiples_length, Hc, Hv, Nat.min_id in Hall. lia.
  - intros HN fuel. rewrite Z.div_small by lia.
    unfold AbTestingUtils.sequentialAnalysis.
    apply sequentialAnalysis_loop_never_returns; lia.
Qed.

End SequentialShape.

Lemma sequentialAnalysis_shorter_arm_witness :
  exists cps : list Checkpoint.t,
    AbTestingUtils.sequentialAnalysis linear_cdf linear_inv 3
      [Fin 1; Fin 0; Fin 1; Fin 0; Fin 1; Fin 1; Fin 0] [Fin 1; Fin 1; Fin 0]
      2 (Fin (95/100)) = Some (Return cps)
    /\ Z.of_nat (List.length cps) = 1%Z.
Proof.
  destruct (sequentialAnalysis_shorter_arm linear_cdf linear_inv
              [Fin 1; Fin 0; Fin 1; Fin 0; Fin 1; Fin 1; Fin 0]
              [Fin 1; Fin 1; Fin 0] 2 (Fin (95/100)) 3
              eq_refl ltac:(vm_compute; lia))
    as [cps [Hrun [Hlen _]]].
  exists cps. split; [exact Hrun | exact Hlen].
Defined.

Lemma sequentialAnalysis_last_checkpoint_witness :
  exists (cps : list Checkpoint.t) (r : AbTestingUtils.OutcomeRecord),
    AbTestingUtils.analyzeResults linear_cdf linear_inv
      [Fin 1; Fin 0; Fin 1; Fin 0] [Fin 1; Fin 1; Fin 0; Fin 1]
      (Fin (95/100)) = Return r
    /\ AbTestingUtils.sequentialAnalysis linear_cdf linear_inv 3
         [Fin 1; Fin 0; Fin 1; Fin 0] [Fin 1; Fin 1; Fin 0; Fin 1]
         2 (Fin (95/100))
       = Some (Return
           (cps ++ [ {| Checkpoint.sampleSize := 4;
                        Checkpoint.pValue := AbTestingUtils.pValue r;
                        Checkpoint.relativeImprovement :=
                          AbTestingUtils.relativeImprovement r |} ])).
Proof.
  destruct (sequentialAnalysis_last_checkpoint linear_cdf linear_inv
              [Fin 1; Fin 0; Fin 1; Fin 0] [Fin 1; Fin 1; Fin 0; Fin 1]
              2 (Fin (95/100)) 1 3 eq_refl eq_refl eq_refl ltac:(lia))
    as [cps [r [Hr [Hrun _]]]].
  exists cps, r. split; [exact Hr | exact Hrun].
Defined.

Lemma sequentialAnalysis_prefix_stable_witness :
  exists cps later : list Checkpoint.t,
    AbTestingUtils.sequentialAnalysis linear_cdf linear_inv 4
      [Fin 1; Fin 0; Fin 1] [Fin 0; Fin 1; Fin 1] 2 (Fin (95/100))
    = Some (Return cps)
    /\ AbTestingUtils.sequentialAnalysis linear_cdf linear_inv 4
         ([Fin 1; Fin 0; Fin 1] ++ [Fin 0; Fin 0])
         ([Fin 0; Fin 1; Fin 1] ++ [Fin 1; Fin 0; Fin 1])
         2 (Fin (95/100))
       = Some (Return (cps ++ later)).
Proof.
  apply sequentialAnalysis_prefix_stable;
    [reflexivity | reflexivity | vm_compute; lia].
Defined.

Lemma sequentialAnalysis_callers_step_witness :
  AbTestingUtils.sequentialAnalysis linear_cdf linear_inv 1000
    [Fin 0; Fin 1; Fin 0] [Fin 1; Fin 0; Fin 0] (Z.of_nat 3 / 10)
    (Fin (95/100)) = None.
Proof.
  exact (proj2 (sequentialAnalysis_callers_step linear_cdf linear_inv
                  [Fin 0; Fin 1; Fin 0] [Fin 1; Fin 0; Fin 0] (Fin (95/100))
                  3 eq_refl eq_refl) ltac:(lia) 1000%nat).
Defined.

(** ** The callers *)

Lemma present_validateInputs (b m c p : num) (message : string) :
  AbTestingUtils.validateInputs b m c p = Some message ->
  present (Some message) = Some message.
Proof. exact (validateInputs_message_truthy b m c p message). Qed.

Lemma present_Statistics_validateInputs (v m c p : num) (message : string) :
  Statistics.validateInputs v m c p = Some message ->
  present (Some message) = Some message.
Proof.
  unfold Statistics.validateInputs.
  repeat match goal with
  | |- context [if ?cond then _ else _] => destruct cond
  end; intros H; inversion H; reflexivity.
Qed.

Lemma every_checkpoint_object (test : jsval -> completion bool)
  (cps : list Checkpoint.t) :
  (forall cp, test (checkpoint_object cp) = Return true) ->
  every test (map checkpoint_object cps) = Return true.
Proof.
  intros Htest. induction cps as [| cp cps IH]; [reflexivity |].
  cbn [map every]. now rewrite Htest.
Qed.

Section ShapeChecks.

Variable Phi : R -> R.
Variable PhiInv : R -> R.

(** X20.  [isValidTestResults] of [components/ABTestingFramework.tsx] asks
    for a numeric [sampleSize] field, which the record of [analyzeResults]
    does not have: it rejects every record [analyzeResults] returns. *)
Theorem Component_isValidTestResults_rejects_analysis
  (controlData variantData : list num) (confidence : num) :
  exists r : AbTestingUtils.OutcomeRecord,
    AbTestingUtils.analyzeResults Phi PhiInv controlData variantData
      confidence = Return r
    /\ Component.isValidTestResults (outcome_object r) = Return false.
Proof. eexists. split; reflexivity. Qed.

(** X21.  [isValidTestResults] of [part_001] accepts every record
    [analyzeResults] returns, also one whose numbers are [NaN] or
    infinite. *)
Theorem Part001_isValidTestResults_accepts_analysis
  (controlData variantData : list num) (confidence : num) :
  exists r : AbTestingUtils.OutcomeRecord,
    AbTestingUtils.analyzeResults Phi PhiInv controlData variantData
      confidence = Return r
    /\ Part001.isValidTestResults (outcome_object r) = Return true.
Proof. eexists. split; reflexivity. Qed.

(** X22.  [isValidSequentialAnalysis], in both files, accepts every array
    of checkpoints, whatever numbers they hold: nothing [sequentialAnalysis]
    returns is ever rejected. *)
Theorem isValidSequentialAnalysis_accepts_checkpoints
  (cps : list Checkpoint.t) :
  Component.isValidSequentialAnalysis (JArr (map checkpoint_object cps))
  = Return true
  /\ Part001.isValidSequentialAnalysis (JArr (map checkpoint_object cps))
     = Return true.
Proof.
  split; cbn [Component.isValidSequentialAnalysis
              Part001.isValidSequentialAnalysis];
    apply every_checkpoint_object; intros cp; reflexivity.
Qed.

End ShapeChecks.

(** *** [handleInputChange] of [src/ABTestingFramework.tsx] *)

Lemma Params_set_confidence (v : num) (prev : Params.t) :
  Params.confidence (Params.set "confidence" v prev) = v
  /\ Params.mde (Params.set "confidence" v prev) = Params.mde prev
  /\ Params.power (Params.set "confidence" v prev) = Params.power prev.
Proof. repeat split; reflexivity. Qed.

Lemma Page_handleInputChange_rejected (params : Params.t)
  (errors : Errors.t) (name : string) (numValue : num) :
  Statistics.validateInputs numValue (Params.mde params)
    (Params.confidence params) (Params.power params) <> None ->
  fst (Page.handleInputChange params errors name numValue) = params
  /\ snd (Page.handleInputChange params errors name numValue) name <> None.
Proof.
  intros Hrej. unfold Page.handleInputChange.
  destruct (isNaN numValue).
  - cbn. unfold Errors.set. rewrite String.eqb_refl.
    split; [reflexivity | discriminate].
  - destruct (Statistics.validateInputs _ _ _ _) as [message |] eqn:E;
      [| contradiction].
    rewrite (present_Statistics_validateInputs _ _ _ _ _ E). cbn.
    unfold Errors.set. rewrite String.eqb_refl.
    split; [reflexivity | discriminate].
Qed.

(** X23.  An edit is stored exactly when the number typed lies in
    [[0, 1]] and the current [mde], [confidence] and [power] pass their own
    checks: the value is checked as a baseline rate, whichever field it is
    typed into.  A rejected edit leaves [params] alone and puts a message
    under the field's name. *)
Theorem Page_handleInputChange_accepts_iff
  (params : Params.t) (errors : Errors.t) (name : string) (numValue : num) :
  let accepted :=
    (exists r : R, numValue = Fin r /\ 0 <= r <= 1)
    /\ nan_or_within 0 1 (Params.mde params)
    /\ nan_or_within (8/10) 1 (Params.confidence params)
    /\ nan_or_within (8/10) 1 (Params.power params) in
  let after := Page.handleInputChange params errors name numValue in
  (accepted ->
   fst after = Params.set name numValue params /\ snd after name = None)
  /\ (~ accepted -> fst after = params /\ snd after name <> None).
Proof.
  intros accepted after. subst accepted after. split.
  - intros [[r [-> Hr]] Hrest].
    assert (Hok : Statistics.validateInputs (Fin r) (Params.mde params)
                    (Params.confidence params) (Params.power params) = None).
    { apply Statistics_validateInputs_None_iff. split; [| exact Hrest].
      right. exists r. split; [reflexivity | exact Hr]. }
    unfold Page.handleInputChange. cbn [isNaN]. rewrite Hok. cbn.
    unfold Errors.set. now rewrite String.eqb_refl.
  - intros Hnot.
    destruct numValue as [r | | |].
    + apply Page_handleInputChange_rejected. intros Hok.
      apply Statistics_validateInputs_None_iff in Hok.
      destruct Hok as [[Hv | [r' [E Hr]]] Hrest]; [discriminate |].
      inversion E; subst r'. apply Hnot. split; [| exact Hrest].
      exists r. split; [reflexivity | exact Hr].
    + apply Page_handleInputChange_rejected. intros Hok.
      apply Statistics_validateInputs_None_iff in Hok.
      destruct Hok as [[Hv | [r' [E _]]] _]; discriminate.
    + apply Page_handleInputChange_rejected. intros Hok.
      apply Statistics_validateInputs_None_iff in Hok.
      destruct Hok as [[Hv | [r' [E _]]] _]; discriminate.
    + unfold Page.handleInputChange. cbn. unfold Errors.set.
      rewrite String.eqb_refl. split; [reflexivity | discriminate].
Qed.

(** X24.  The form can lock itself.  From parameters that pass their checks
    a confidence level below [0.8] is accepted, because it is checked as a
    baseline rate; from then on every edit is rejected, whatever the field
    and the value, so the confidence level cannot be repaired. *)
Theorem Page_handleInputChange_locks
  (params : Params.t) (errors : Errors.t) (x : R) :
  nan_or_within 0 1 (Params.mde params) ->
  nan_or_within (8/10) 1 (Params.confidence params) ->
  nan_or_within (8/10) 1 (Params.power params) ->
  0 <= x < 8/10 ->
  let locked :=
    fst (Page.handleInputChange params errors "confidence" (Fin x)) in
  Params.confidence locked = Fin x
  /\ forall (errors' : Errors.t) (name : string) (numValue : num),
       fst (Page.handleInputChange locked errors' name numValue) = locked.
Proof.
  intros Hm Hc Hp Hx locked.
  assert (Hlocked : locked = Params.set "confidence" (Fin x) params).
  { subst locked. unfold Page.handleInputChange. cbn [isNaN].
    replace (Statistics.validateInputs _ _ _ _) with (@None string);
      [reflexivity |].
    symmetry. apply Statistics_validateInputs_None_iff.
    repeat split; try assumption.
    right. exists x. split; [reflexivity | lra]. }
  rewrite Hlocked. split; [reflexivity |].
  intros errors' name numValue.
  destruct (isNaN numValue) eqn:Enan.
  - unfold Page.handleInputChange. now rewrite Enan.
  - apply Page_handleInputChange_rejected. intros Hok.
    apply Statistics_validateInputs_None_iff in Hok.
    destruct Hok as [_ [_ [[Hnan | [r [E Hr]]] _]]].
    + discriminate.
    + cbn in E. inversion E. lra.
Qed.

(** *** The handlers of [components/ABTestingFramework.tsx] *)

(** With [NaN] in the three other places only the [mde] check is left. *)
Lemma validateInputs_only_second (v : num) :
  AbTestingUtils.validateInputs NaN v Component.ObjectToNumber
    Component.ObjectToNumber
  = if (v <=? Fin 0)%num || (v >=? Fin 1)%num
    then Some "Minimum detectable effect must be between 0 and 1"%string
    else None.
Proof. reflexivity. Qed.

Section ComponentHandlers.

Variable StringToNumber : string -> num.
Variable PhiInv : R -> R.

(** X25.  For an input whose name is not a numeric string,
    [handleInputChange] checks the number typed against (0,1) only,
    whichever field it is typed into and whatever the parameters are: the
    call [validateInputs(name, numValue, params, errors)] puts it in the
    place of [mde] and turns the three other arguments into [NaN].  A
    number that is [NaN] or strictly inside (0,1) is stored; any other is
    rejected with the message of the [mde] check. *)
Theorem Component_handleInputChange_accepts_iff
  (params : Params.t) (errors : Errors.t) (name : string) (numValue : num) :
  StringToNumber name = NaN ->
  let after :=
    Component.handleInputChange StringToNumber params errors name numValue in
  (nan_or_inside 0 1 numValue ->
   fst after = Params.set name numValue params /\ snd after name = None)
  /\ (~ nan_or_inside 0 1 numValue ->
      fst after = params
      /\ snd after name
         = Some "Minimum detectable effect must be between 0 and 1"%string).
Proof.
  intros Hname after. subst after. unfold Component.handleInputChange.
  rewrite Hname, validateInputs_only_second.
  destruct ((numValue <=? Fin 0)%num || (numValue >=? Fin 1)%num) eqn:E.
  - split.
    + intros Hin. apply strict_test_passes in Hin. congruence.
    + intros _. cbn. unfold Errors.set. now rewrite String.eqb_refl.
  - split.
    + intros _. cbn. unfold Errors.set. now rewrite String.eqb_refl.
    + intros Hout. exfalso. apply Hout. now apply strict_test_passes.
Qed.

(** X26.  [calculateSize] never stores a sample size that is [<= 0], and it
    moves to the [run] tab only with the size it stores: for every state,
    either the size and the tab are left as they were, or the new size
    fails the test [size <= 0], the tab is [run] and no error is shown. *)
Theorem Component_calculateSize_guard (st : Component.State) :
  let st' := Component.calculateSize PhiInv st in
  Component.params st' = Component.params st
  /\ ((Component.sampleSize st' = Component.sampleSize st
       /\ Component.activeTab st' = Component.activeTab st
       /\ Component.errors st' "form"%string <> None)
      \/ ((Component.sampleSize st' <=? Fin 0)%num = false
          /\ Component.activeTab st' = "run"%string
          /\ Component.errors st' "form"%string = None
          /\ Component.isCalculating st' = false)).
Proof.
  cbv zeta. unfold Component.calculateSize, Component.validateForm.
  destruct (AbTestingUtils.validateInputs _ _ _ _) as [message |] eqn:E.
  - rewrite (present_validateInputs _ _ _ _ _ E). cbn.
    split; [reflexivity |]. left. repeat split; discriminate.
  - cbn [present negb]. unfold AbTestingUtils.calculateSampleSize.
    rewrite E. cbn [thrown].
    match goal with
    | |- context [(?size <=? Fin 0)%num] =>
        destruct (size <=? Fin 0)%num eqn:Esize
    end; cbn.
    + split; [reflexivity |]. left. repeat split; discriminate.
    + split; [reflexivity |]. right. repeat split. exact Esize.
Qed.

End ComponentHandlers.

Lemma Page_handleInputChange_locks_witness :
  let params :=
    {| Params.baselineRate := Fin (1/10); Params.mde := Fin (5/100);
       Params.confidence := Fin (95/100); Params.power := Fin (8/10) |} in
  let locked :=
    fst (Page.handleInputChange params Errors.empty "confidence"
           (Fin (1/2))) in
  Params.confidence locked = Fin (1/2)
  /\ fst (Page.handleInputChange locked Errors.empty "confidence"
            (Fin (95/100))) = locked.
Proof.
  cbv zeta.
  destruct (Page_handleInputChange_locks
              {| Params.baselineRate := Fin (1/10); Params.mde := Fin (5/100);
                 Params.confidence := Fin (95/100);
                 Params.power := Fin (8/10) |}
              Errors.empty (1/2)) as [Hconf Hlock].
  - right. exists (5/100). split; [reflexivity | lra].
  - right. exists (95/100). split; [reflexivity | lra].
  - right. exists (8/10). split; [reflexivity | lra].
  - lra.
  - split; [exact Hconf | apply Hlock].
Defined.

Lemma Component_handleInputChange_accepts_iff_witness :
  fst (Component.handleInputChange (fun _ => NaN)
         {| Params.baselineRate := Fin (1/10); Params.mde := Fin (5/100);
            Params.confidence := Fin (95/100); Params.power := Fin (8/10) |}
         Errors.empty "power" (Fin (1/2)))
  = {| Params.baselineRate := Fin (1/10); Params.mde := Fin (5/100);
       Params.confidence := Fin (95/100); Params.power := Fin (1/2) |}.
Proof.
  refine (proj1 (proj1 (Component_handleInputChange_accepts_iff (fun _ => NaN)
            {| Params.baselineRate := Fin (1/10); Params.mde := Fin (5/100);
               Params.confidence := Fin (95/100);
               Params.power := Fin (8/10) |}
            Errors.empty "power" (Fin (1/2)) eq_refl) _)).
  right. exists (1/2). split; [reflexivity | lra].
Defined.

(** *** Generated observations *)

Lemma array_length_nat (n : nat) :
  (Z.of_nat n < 2 ^ 32)%Z ->
  array_length (Fin (IZR (Z.of_nat n))) = Some n.
Proof.
  intros Hn. unfold array_length.
  assert (Hup : up (IZR (Z.of_nat n)) = (Z.of_nat n + 1)%Z).
  { symmetry. apply up_tech; [lra |]. apply IZR_lt. lia. }
  rewrite Hup.
  replace (Z.of_nat n + 1 - 1)%Z with (Z.of_nat n) by lia.
  rewrite Reqb_true by reflexivity.
  destruct (Z.leb_spec 0 (Z.of_nat n)); [| lia].
  destruct (Z.ltb_spec (Z.of_nat n) (2 ^ 32)); [| lia].
  cbn. now rewrite Nat2Z.id.
Qed.

Lemma map_bits (f : nat -> bool) (l : list nat) :
  map (fun i => if f i then Fin 1 else Fin 0) l = of_bits (map f l).
Proof. unfold of_bits. rewrite map_map. reflexivity. Qed.

(** X28.  [generateTestData] yields observations that are all [0] or [1],
    exactly [size] of them, whatever [Math.random] returns and whatever the
    rate is; a size that is not an array length raises an error. *)
Theorem generateTestData_binary
  (random : nat -> R) (size baseRate : num) :
  (forall n : nat, (Z.of_nat n < 2 ^ 32)%Z -> size = Fin (IZR (Z.of_nat n)) ->
     exists bs : list bool,
       Component.generateTestData random size baseRate = Return (of_bits bs)
       /\ List.length bs = n)
  /\ (array_length size = None ->
      exists message : string,
        Component.generateTestData random size baseRate = Throw message).
Proof.
  split.
  - intros n Hn ->. unfold Component.generateTestData.
    rewrite (array_length_nat n Hn).
    eexists. split.
    + f_equal. apply (map_bits (fun i =>
        (Fin (random (2 * i)%nat)
         <? baseRate * (Fin 1 + (Fin (random (2 * i + 1)%nat) - Fin (5/10))
                                * Fin (1/10)))%num)).
    + now rewrite length_map, length_seq.
  - intros Hnone. unfold Component.generateTestData. rewrite Hnone.
    eexists. reflexivity.
Qed.

(** ** The [Statistics] copy at the edges *)

Section StatisticsEdges.

Variable PhiInv : R -> R.

(** Quantiles above the median are positive. *)
Hypothesis PhiInv_pos : forall p : R, 1/2 < p < 1 -> 0 < PhiInv p.

(** X29.  [calculateSampleSize] of the [Statistics] copy validates nothing:
    with [mde = 0] and the other parameters inside their bounds it divides
    by zero and returns [+Infinity]. *)
Theorem Statistics_calculateSampleSize_zero_effect
  (baselineRate confidence power : R) :
  0 < baselineRate < 1 -> 8/10 < confidence < 1 -> 8/10 < power < 1 ->
  Statistics.calculateSampleSize PhiInv
    (Fin baselineRate) (Fin 0) (Fin confidence) (Fin power) = Return PInf.
Proof.
  intros Hb Hc Hp.
  assert (HzA : 0 < PhiInv (1 - (1 - confidence) / 2))
    by (apply PhiInv_pos; lra).
  assert (HzB : 0 < PhiInv power) by (apply PhiInv_pos; lra).
  unfold Statistics.calculateSampleSize. fin_simpl.
  set (numerator := 2 * _ * _ * _).
  assert (Hnum : 0 < numerator).
  { subst numerator.
    assert (0 < (PhiInv (1 - (1 - confidence) / 2) + PhiInv power) ^ 2)
      by (apply pow_lt; lra).
    replace ((baselineRate + baselineRate * (1 + 0)) / 2)
      with baselineRate by field.
    assert (0 < baselineRate * (1 - baselineRate)) by nra.
    nra. }
  unfold div.
  rewrite (Reqb_true _ 0) by ring.
  rewrite Reqb_false by lra. rewrite Rltb_true by exact Hnum.
  reflexivity.
Qed.

End StatisticsEdges.

Lemma Statistics_calculateSampleSize_zero_effect_witness :
  Statistics.calculateSampleSize linear_inv
    (Fin (1/10)) (Fin 0) (Fin (95/100)) (Fin (9/10)) = Return PInf.
Proof.
  apply (Statistics_calculateSampleSize_zero_effect linear_inv
           linear_inv_pos); lra.
Defined.

Lemma Statistics_analyzeResults_one_sided_witness :
  exists r : Statistics.OutcomeRecord,
    Statistics.analyzeResults linear_cdf linear_inv
      (of_bits [true; false]) (of_bits [true; true]) (Fin (95/100))
    = Return r
    /\ control (Statistics.confidenceIntervals r)
       = Fin (armStandardError [true; false] * linear_inv (95/100)
              + mean [true; false]).
Proof.
  destruct (Statistics_analyzeResults_one_sided linear_cdf linear_inv
              [true; false] [true; true] (95/100)
              ltac:(discriminate) ltac:(discriminate))
    as [r [Hret [Hc _]]].
  exists r. split; assumption.
Defined.
